(** * MetricCurator: the reporter pipeline of [reporter.py]

    A shallow embedding of the four stages of [reporter.py]:

    - [get_all_queries_from_grafana]  (dashboard query extractor),
    - [get_metrics]                   (metric collector),
    - [generate_report_with_gemini]   (narrative generator),
    - [send_to_discord]               (notifier).

    Python values coming out of [response.json()] and out of the
    Prometheus client are modelled by the inductive type [json]; Python
    [str] is a list of Unicode code points; exceptions are explicit
    ([py_result]); the dashboard API, the chat webhook, the Prometheus
    client and the generative model are oracles, and the HTTP requests
    issued, the queries and the prompts sent are returned with the result.

    Each function is given twice.  The first reading leaves the [print]
    calls out: it is the function in a run in which every [print]
    succeeds, and the results on the values that the functions build are
    stated on it.  The module [Console] gives the function with every
    [print] of the source in its place, on a console that refuses the
    texts holding a surrogate code point; the results on what the
    functions raise, and on what they do when a text cannot be written,
    are stated on it. *)

From Stdlib Require Import String Ascii.
From Stdlib Require Import List ZArith NArith Bool Lia PeanoNat.
From Stdlib Require Import Floats.SpecFloat.
Import ListNotations.

Set Warnings "-register-all".

(* ================================================================== *)
(** ** Python strings *)
(* ================================================================== *)

Module PyStr.

(** A Python [str] is a sequence of code points. *)
Definition char := N.
Definition str := list char.

(** Source literals are written as UTF-8 text and decoded to code points. *)
Fixpoint utf8_decode (bs : list N) : str :=
  match bs with
  | [] => []
  | b0 :: r0 =>
      if (b0 <? 128)%N then b0 :: utf8_decode r0
      else if (b0 <? 224)%N then
        match r0 with
        | b1 :: r1 => ((b0 - 192) * 64 + (b1 - 128))%N :: utf8_decode r1
        | _ => []
        end
      else if (b0 <? 240)%N then
        match r0 with
        | b1 :: b2 :: r2 =>
            ((b0 - 224) * 4096 + (b1 - 128) * 64 + (b2 - 128))%N :: utf8_decode r2
        | _ => []
        end
      else
        match r0 with
        | b1 :: b2 :: b3 :: r3 =>
            ((b0 - 240) * 262144 + (b1 - 128) * 4096
             + (b2 - 128) * 64 + (b3 - 128))%N :: utf8_decode r3
        | _ => []
        end
  end.

Definition lit (s : string) : str :=
  utf8_decode (map N_of_ascii (list_ascii_of_string s)).

Fixpoint eqb (a b : str) : bool :=
  match a, b with
  | [], [] => true
  | x :: a', y :: b' => (x =? y)%N && eqb a' b'
  | _, _ => false
  end.

(** [s.startswith(p)] *)
Fixpoint startswith (p s : str) : bool :=
  match p with
  | [] => true
  | a :: p' =>
      match s with
      | [] => false
      | c :: s' => (a =? c)%N && startswith p' s'
      end
  end.

(** [p in s] *)
Fixpoint contains (p s : str) : bool :=
  startswith p s
  || match s with
     | [] => false
     | _ :: s' => contains p s'
     end.

(** [s.count(p)] when the occurrences of [p] cannot overlap: the number of
    positions of [s] at which [p] starts. *)
Fixpoint occurrences (p s : str) : nat :=
  (if startswith p s then 1 else 0)
  + match s with
    | [] => 0
    | _ :: s' => occurrences p s'
    end.

(** [s.replace(old, new)]: the occurrences of [old] are found from left
    to right and do not overlap; [skip] counts the characters of a match
    that are still to be passed over.  With an empty [old], Python puts
    [new] in front of every character and at the end. *)
Fixpoint replace_from (old new : str) (skip : nat) (s : str) : str :=
  match s with
  | [] => []
  | c :: s' =>
      match skip with
      | S k => replace_from old new k s'
      | O =>
          if startswith old s
          then new ++ replace_from old new (length old - 1) s'
          else c :: replace_from old new 0 s'
      end
  end.

Definition replace (old new s : str) : str :=
  match old with
  | [] => new ++ flat_map (fun c => c :: new) s
  | _ :: _ => replace_from old new 0 s
  end.

End PyStr.

Import PyStr.

(* ================================================================== *)
(** ** Templating tokens (reporter.py, line 89) *)
(* ================================================================== *)

Definition tok_range : str := Eval cbv in lit "$__range".
Definition tok_interval : str := Eval cbv in lit "$__interval".
Definition lit_24h : str := Eval cbv in lit "24h".
Definition lit_5m : str := Eval cbv in lit "5m".

Definition tail_range : str := Eval cbv in tl tok_range.
Definition tail_interval : str := Eval cbv in tl tok_interval.

(** [query.replace('$__range', '24h').replace('$__interval', '5m')] *)
Definition substitute_grafana_vars (query : str) : str :=
  replace tok_interval lit_5m (replace tok_range lit_24h query).

(** The reading of the specification: one pass over the expression in which
    every occurrence of either placeholder is exchanged for its literal and
    every other character is kept. *)
Fixpoint expand_placeholders_from (skip : nat) (s : str) : str :=
  match s with
  | [] => []
  | c :: s' =>
      match skip with
      | S k => expand_placeholders_from k s'
      | O =>
          if startswith tok_range s
          then lit_24h ++ expand_placeholders_from (length tok_range - 1) s'
          else if startswith tok_interval s
          then lit_5m ++ expand_placeholders_from (length tok_interval - 1) s'
          else c :: expand_placeholders_from 0 s'
      end
  end.

Definition expand_placeholders (s : str) : str := expand_placeholders_from 0 s.

(** Both placeholders begin with the dollar sign and have no other. *)
Definition dollar : char := 36%N.

(** The token found at the head of [s], with its literal: by one [replace],
    and by the one-pass expansion. *)
Definition match_one (old new s : str) : option (str * str) :=
  if startswith old s then Some (old, new) else None.

Definition match_both (s : str) : option (str * str) :=
  if startswith tok_range s then Some (tok_range, lit_24h)
  else if startswith tok_interval s then Some (tok_interval, lit_5m)
  else None.

(* ================================================================== *)
(** ** Python values, exceptions *)
(* ================================================================== *)

(** What [json.loads] builds: [None], [bool], [int], [float], [str], [list]
    and [dict] (string keys, in insertion order; the keys of a dict are
    distinct, and a lookup takes the first binding of a key). *)
Inductive json : Type :=
| JNull
| JBool (b : bool)
| JInt (n : Z)
| JFloat (f : spec_float)
| JStr (s : str)
| JArr (items : list json)
| JObj (fields : list (str * json)).

(** Truth value of a Python object, as tested by [if], [not] and [and]. *)
Definition truthy (v : json) : bool :=
  match v with
  | JNull => false
  | JBool b => b
  | JInt n => negb (n =? 0)%Z
  | JFloat (S754_zero _) => false
  | JFloat _ => true
  | JStr [] => false
  | JStr (_ :: _) => true
  | JArr [] => false
  | JArr (_ :: _) => true
  | JObj [] => false
  | JObj (_ :: _) => true
  end.

Fixpoint dict_lookup (k : str) (d : list (str * json)) : option json :=
  match d with
  | [] => None
  | (k', v) :: d' => if eqb k k' then Some v else dict_lookup k d'
  end.

(** [d.get(k, default)] and [k in d] on a [dict]. *)
Definition dict_get (d : list (str * json)) (k : str) (default : json) : json :=
  match dict_lookup k d with
  | Some v => v
  | None => default
  end.

Definition dict_has (d : list (str * json)) (k : str) : bool :=
  match dict_lookup k d with
  | Some _ => true
  | None => false
  end.

(** The exception classes that occur; all of them derive from [Exception].
    [ValueError] stands for [json.JSONDecodeError] too, and
    [RequestException] for its subclasses ([HTTPError], [Timeout], ...). *)
Inductive exn_class : Type :=
| RequestException
| ValueError
| AttributeError
| TypeError
| KeyError
| IndexError
| PrometheusApiClientException
| UnicodeEncodeError
| OtherException.

Inductive py_result (A : Type) : Type :=
| Returned (a : A)
| Raised (e : exn_class).

Arguments Returned {A} a.
Arguments Raised {A} e.

Definition bind {A B : Type} (r : py_result A) (k : A -> py_result B) : py_result B :=
  match r with
  | Returned a => k a
  | Raised e => Raised e
  end.

Notation "x <- r ;; k" := (bind r (fun x => k))
  (at level 61, r at next level, right associativity).

(** [for x in l: acc = body(acc, x)], stopping at the first exception. *)
Fixpoint for_each {A S : Type} (body : S -> A -> py_result S) (acc : S) (l : list A)
  : py_result S :=
  match l with
  | [] => Returned acc
  | x :: rest => acc' <- body acc x ;; for_each body acc' rest
  end.

(** What a [for] loop iterates over: the items of a list, the keys of a
    dict, the characters of a str; anything else is not iterable. *)
Definition py_iter (v : json) : py_result (list json) :=
  match v with
  | JArr items => Returned items
  | JObj d => Returned (map (fun kv => JStr (fst kv)) d)
  | JStr s => Returned (map (fun c => JStr [c]) s)
  | _ => Raised TypeError
  end.

(* ================================================================== *)
(** ** Configuration and HTTP (reporter.py, lines 18-36) *)
(* ================================================================== *)

(** [os.environ.get] gives [None] for a variable that is not set. *)
Record Config : Type := {
  PROMETHEUS_URL : option str;
  DISCORD_WEBHOOK_URL : option str;
  GEMINI_API_KEY : option str;
  GRAFANA_URL : option str;
  GRAFANA_API_KEY : option str;
  GRAFANA_PUBLIC_DOMAIN : option str;
  DASHBOARD_UID : option str
}.

Definition env_truthy (v : option str) : bool :=
  match v with
  | Some (_ :: _) => true
  | _ => false
  end.

Definition s_None : str := Eval cbv in lit "None".

(** [f"{v}"] of a configuration value. *)
Definition env_str (v : option str) : str :=
  match v with
  | Some s => s
  | None => s_None
  end.

Inductive http_method : Type := GET | POST.

Record http_request : Type := {
  req_method : http_method;
  req_url : str;
  req_headers : list (str * option str);
  req_json : option (list (str * str));
  req_timeout : Z
}.

(** A call of [requests] gives a response (status code, text, and the value
    of [response.json()], absent when the body is not JSON) or raises a
    [RequestException]. *)
Inductive http_outcome : Type :=
| HttpResponse (status_code : Z) (text : str) (body_json : option json)
| HttpFailure.

(* ================================================================== *)
(** ** Dashboard query extractor (reporter.py, lines 49-101) *)
(* ================================================================== *)

Definition k_dashboard : str := Eval cbv in lit "dashboard".
Definition k_panels : str := Eval cbv in lit "panels".
Definition k_title : str := Eval cbv in lit "title".
Definition k_datasource : str := Eval cbv in lit "datasource".
Definition k_type : str := Eval cbv in lit "type".
Definition k_prometheus : str := Eval cbv in lit "prometheus".
Definition k_targets : str := Eval cbv in lit "targets".
Definition k_hide : str := Eval cbv in lit "hide".
Definition k_expr : str := Eval cbv in lit "expr".
Definition default_title : str := Eval cbv in lit "제목 없는 패널".

(** [{'title': panel_title, 'query': query}]: the title is whatever value
    the panel carries, the query is a [str]. *)
Record QueryItem : Type := { title : json; query : str }.

(** Line 82. *)
Definition is_prometheus_panel (datasource_info : json) : bool :=
  match datasource_info with
  | JObj d =>
      match dict_get d k_type JNull with
      | JStr s => eqb s k_prometheus
      | _ => false
      end
  | JNull => true
  | _ => false
  end.

(** Line 84, on the fields of a panel. *)
Definition panel_selected (p : list (str * json)) : bool :=
  dict_has p k_targets && is_prometheus_panel (dict_get p k_datasource (JObj [])).

(** Line 86, on the fields of a target. *)
Definition target_selected (t : list (str * json)) : bool :=
  negb (truthy (dict_get t k_hide JNull))
  && dict_has t k_expr
  && truthy (dict_get t k_expr JNull).

(** Lines 86-91: one target. *)
Definition extract_target (panel_title : json) (queries_with_titles : list QueryItem)
    (target : json) : py_result (list QueryItem) :=
  match target with
  | JObj t =>
      if target_selected t then
        match dict_get t k_expr JNull with
        | JStr q =>
            Returned (queries_with_titles
                      ++ [{| title := panel_title;
                             query := substitute_grafana_vars q |}])
        | _ => Raised AttributeError
        end
      else Returned queries_with_titles
  | _ => Raised AttributeError
  end.

(** Lines 80-91: one panel. *)
Definition extract_panel (queries_with_titles : list QueryItem) (panel : json)
  : py_result (list QueryItem) :=
  match panel with
  | JObj p =>
      let panel_title := dict_get p k_title (JStr default_title) in
      if panel_selected p then
        targets <- py_iter (dict_get p k_targets JNull) ;;
        for_each (extract_target panel_title) queries_with_titles targets
      else Returned queries_with_titles
  | _ => Raised AttributeError
  end.

(** Lines 76-94: the walk over the parsed body. *)
Definition extract_queries (dashboard_data : json) : py_result (list QueryItem) :=
  match dashboard_data with
  | JObj top =>
      match dict_get top k_dashboard (JObj []) with
      | JObj dash =>
          panels <- py_iter (dict_get dash k_panels (JArr [])) ;;
          for_each extract_panel [] panels
      | _ => Raised AttributeError
      end
  | _ => Raised AttributeError
  end.

Definition h_authorization : str := Eval cbv in lit "Authorization".
Definition h_bearer : str := Eval cbv in lit "Bearer ".
Definition h_accept : str := Eval cbv in lit "Accept".
Definition h_application_json : str := Eval cbv in lit "application/json".
Definition h_host : str := Eval cbv in lit "Host".
Definition api_path : str := Eval cbv in lit "/api/dashboards/uid/".

Definition grafana_request (cfg : Config) (dashboard_uid : option str) : http_request :=
  {| req_method := GET;
     req_url := env_str (GRAFANA_URL cfg) ++ api_path ++ env_str dashboard_uid;
     req_headers :=
       [ (h_authorization, Some (h_bearer ++ env_str (GRAFANA_API_KEY cfg)));
         (h_accept, Some h_application_json);
         (h_host, GRAFANA_PUBLIC_DOMAIN cfg) ];
     req_json := None;
     req_timeout := 10 |}.

(** Lines 96-101: the two handlers of the [try]. *)
Definition except_request_or_value (r : py_result (list QueryItem))
  : py_result (list QueryItem) :=
  match r with
  | Raised RequestException => Returned []
  | Raised ValueError => Returned []
  | _ => r
  end.

(** The function returns its result together with the requests it issued. *)
Definition get_all_queries_from_grafana (cfg : Config)
    (http_get : http_request -> http_outcome) (dashboard_uid : option str)
  : py_result (list QueryItem) * list http_request :=
  if negb (forallb env_truthy
             [GRAFANA_URL cfg; GRAFANA_API_KEY cfg; GRAFANA_PUBLIC_DOMAIN cfg;
              dashboard_uid])
  then (Returned [], [])
  else
    let request := grafana_request cfg dashboard_uid in
    (except_request_or_value
       match http_get request with
       | HttpFailure => Raised RequestException
       | HttpResponse status_code _ body_json =>
           if negb (status_code =? 200)%Z then Returned []
           else
             match body_json with
             | None => Raised ValueError
             | Some dashboard_data => extract_queries dashboard_data
             end
       end,
     [request]).

(* ================================================================== *)
(** ** Metric collector (reporter.py, lines 104-146) *)
(* ================================================================== *)

Definition nl : str := [10%N].
Definition dquote : char := 34%N.

(** The parts of the Python runtime that the collector relies on: the
    parsing of a [str] and the rounding of an [int] by [float], the format
    [:.2f] of a float, and [str(x)] for a value that is not a [str]. *)
Record PyRuntime : Type := {
  float_of_str : str -> py_result spec_float;
  float_of_int : Z -> py_result spec_float;
  format_2f : spec_float -> str;
  py_str : json -> str
}.

(** [float(x)]: a float is returned as it is, a [bool] is an [int], and
    [None], a list and a dict are rejected with [TypeError]. *)
Definition py_float (rt : PyRuntime) (x : json) : py_result spec_float :=
  match x with
  | JFloat f => Returned f
  | JInt n => float_of_int rt n
  | JBool b => float_of_int rt (if b then 1 else 0)
  | JStr s => float_of_str rt s
  | JNull | JArr _ | JObj _ => Raised TypeError
  end.

(** [f"{v}"] *)
Definition fmt (rt : PyRuntime) (v : json) : str :=
  match v with
  | JStr s => s
  | _ => py_str rt v
  end.

(** [prom.custom_query(query=...)] gives the series or raises. *)
Inductive prom_outcome : Type :=
| PromResult (metrics : json)
| PromRaised (e : exn_class).

Definition k_metric : str := Eval cbv in lit "metric".
Definition k_value : str := Eval cbv in lit "value".
Definition k_name : str := Eval cbv in lit "__name__".
Definition s_comma : str := Eval cbv in lit ", ".
Definition s_Total : str := Eval cbv in lit "Total".
Definition s_bullet : str := Eval cbv in lit "- `".
Definition s_colon : str := Eval cbv in lit "`: **".
Definition s_stars : str := Eval cbv in lit "**".
Definition s_section : str := Eval cbv in lit "### ".
Definition s_header : str := Eval cbv in lit "## 📈 Grafana 대시보드 자동 요약 보고서".
Definition s_dashboard_open : str := Eval cbv in lit "(Dashboard: ".
Definition s_dashboard_close : str := Eval cbv in lit ")".
Definition no_data_marker : str := Eval cbv in lit "- (데이터 없음)" ++ nl ++ nl.
Definition query_failed_marker : str :=
  Eval cbv in lit "  - (쿼리 실행 중 에러 발생)" ++ nl ++ nl.
Definition unknown_error_marker : str :=
  Eval cbv in lit "  - (알 수 없는 에러 발생)" ++ nl ++ nl.

(** [sep.join(l)] *)
Fixpoint py_join (sep : str) (l : list str) : str :=
  match l with
  | [] => []
  | [x] => x
  | x :: rest => x ++ sep ++ py_join sep rest
  end.

(** [v[1]] *)
Definition py_item_1 (v : json) : py_result json :=
  match v with
  | JArr items =>
      match nth_error items 1 with
      | Some x => Returned x
      | None => Raised IndexError
      end
  | JStr s =>
      match nth_error s 1 with
      | Some c => Returned (JStr [c])
      | None => Raised IndexError
      end
  | JObj _ => Raised KeyError
  | _ => Raised TypeError
  end.

(** Line 130. *)
Definition label_string (rt : PyRuntime) (labels : list (str * json)) : str :=
  py_join s_comma
    (map (fun kv => fst kv ++ [61%N; dquote] ++ fmt rt (snd kv) ++ [dquote])
       (filter (fun kv => negb (eqb (fst kv) k_name)) labels)).

(** Lines 131-135: the line of a series with the given labels and value. *)
Definition sample_line (rt : PyRuntime) (labels : list (str * json)) (value : spec_float)
  : str :=
  let label_str := label_string rt labels in
  let label_str := match label_str with [] => s_Total | _ :: _ => label_str end in
  s_bullet ++ label_str ++ s_colon ++ format_2f rt value ++ s_stars ++ nl.

(** Lines 128-135: the line of one series. *)
Definition series_line (rt : PyRuntime) (metric : json) : py_result str :=
  match metric with
  | JObj m =>
      match dict_get m k_metric (JObj []) with
      | JObj labels =>
          pair_ <- match dict_lookup k_value m with
                   | Some v => Returned v
                   | None => Raised KeyError
                   end ;;
          sample <- py_item_1 pair_ ;;
          value <- py_float rt sample ;;
          Returned (sample_line rt labels value)
      | _ => Raised AttributeError
      end
  | _ => Raised AttributeError
  end.

(** Lines 127-135: the loop over the series.  [report_data] is rebound
    after each series, so what was appended before an exception stays. *)
Fixpoint append_series (rt : PyRuntime) (report_data : str) (metrics : list json)
  : str * option exn_class :=
  match metrics with
  | [] => (report_data, None)
  | metric :: rest =>
      match series_line rt metric with
      | Returned line => append_series rt (report_data ++ line) rest
      | Raised e => (report_data, Some e)
      end
  end.

(** Lines 139-144: the two handlers. *)
Definition except_marker (e : exn_class) : str :=
  match e with
  | PrometheusApiClientException => query_failed_marker
  | _ => unknown_error_marker
  end.

Definition section_head (rt : PyRuntime) (item : QueryItem) : str :=
  s_section ++ fmt rt (title item) ++ nl.

(** Lines 115-144: one turn of the loop, from the outcome of the backend
    call to the new [report_data]. *)
Definition collect_query (rt : PyRuntime) (outcome : prom_outcome)
    (report_data : str) (item : QueryItem) : str :=
  let report_data := report_data ++ section_head rt item in
  match outcome with
  | PromRaised e => report_data ++ except_marker e
  | PromResult metrics =>
      if negb (truthy metrics) then report_data ++ no_data_marker
      else
        match py_iter metrics with
        | Raised e => report_data ++ except_marker e
        | Returned series =>
            match append_series rt report_data series with
            | (report_data, None) => report_data ++ nl
            | (report_data, Some e) => report_data ++ except_marker e
            end
        end
  end.

(** Lines 114-144: the loop; [n] is the number of backend calls made so
    far, and [custom_query n q] the outcome of the call number [n]. *)
Fixpoint collect_from (rt : PyRuntime) (custom_query : nat -> str -> prom_outcome)
    (n : nat) (report_data : str) (all_queries : list QueryItem) : str :=
  match all_queries with
  | [] => report_data
  | item :: rest =>
      collect_from rt custom_query (S n)
        (collect_query rt (custom_query n (query item)) report_data item) rest
  end.

(** Line 112. *)
Definition report_header (cfg : Config) : str :=
  s_header ++ nl ++ s_dashboard_open ++ env_str (DASHBOARD_UID cfg)
  ++ s_dashboard_close ++ nl ++ nl.

Definition get_metrics (rt : PyRuntime) (cfg : Config)
    (http_get : http_request -> http_outcome)
    (custom_query : nat -> str -> prom_outcome)
  : py_result (option str) * list http_request :=
  let (r, log) := get_all_queries_from_grafana cfg http_get (DASHBOARD_UID cfg) in
  match r with
  | Raised e => (Raised e, log)
  | Returned [] => (Returned None, log)
  | Returned all_queries =>
      (Returned (Some (collect_from rt custom_query 0 (report_header cfg) all_queries)),
       log)
  end.

(** The text that one turn of the loop adds, and the list of these texts
    for a run. *)
Definition query_section (rt : PyRuntime) (item : QueryItem) (outcome : prom_outcome)
  : str :=
  collect_query rt outcome [] item.

Fixpoint sections (rt : PyRuntime) (custom_query : nat -> str -> prom_outcome)
    (n : nat) (all_queries : list QueryItem) : list str :=
  match all_queries with
  | [] => []
  | item :: rest =>
      query_section rt item (custom_query n (query item))
      :: sections rt custom_query (S n) rest
  end.

(* ================================================================== *)
(** ** Narrative generator (reporter.py, lines 149-181) *)
(* ================================================================== *)

Definition notice_no_api_key : str :=
  Eval cbv in lit "Gemini API 키가 설정되지 않았습니다.".
Definition notice_no_metrics : str :=
  Eval cbv in lit "메트릭 데이터를 수집하지 못해 리포트를 생성할 수 없습니다.".
Definition error_prefix : str :=
  Eval cbv in lit "Gemini API 호출 중 에러가 발생했습니다: ".

Definition prompt_head : str := Eval cbv in lit "
        당신은 쿠버네티스 홈서버 클러스터를 관리하는 시스템 관리 전문가입니다.
        아래에 제공된 Grafana 대시보드의 데이터를 분석하여 한국어로 된 기술적인 상태 보고서를 작성해주세요.

        보고서는 Discord에 게시될 것이므로, 마크다운 문법을 적극적으로 사용하여 가독성을 높여주세요. (예: **, ###, `, > 등)
        
        보고서에는 다음 내용이 포함되어야 합니다:
        1.  **전체 시스템 상태 요약**: 클러스터가 안정적인지, 주의가 필요한 부분이 있는지 간결하게 요약합니다.
        2.  **주요 메트릭 분석**: 각 항목(CPU, 메모리, 디스크, 네트워크 등)을 해석하고, 평소와 다른 특이사항이나 임계치에 가까운 값이 있는지 언급합니다.
        3.  **잠재적 문제점 및 권장 사항**: 데이터 추세를 기반으로 앞으로 발생할 수 있는 문제(예: 디스크 용량 부족 경고, 특정 워크로드의 과도한 리소스 사용 등)를 지적하고, 필요한 조치나 확인해볼 사항을 제안해주세요.

        --- 데이터 ---
        ".
Definition prompt_tail : str := Eval cbv in lit "
        --- 보고서 시작 ---
        ".

(** The [try] block: the model answers with a text, or something in it
    raises an exception [e], of text [str(e)]. *)
Inductive genai_outcome : Type :=
| GenText (text : str)
| GenRaised (e : exn_class) (message : str).

(** The function returns its result together with the prompts it sent. *)
Definition generate_report_with_gemini (cfg : Config)
    (generate_content : str -> genai_outcome) (metrics_text : option str)
  : py_result str * list str :=
  if negb (env_truthy (GEMINI_API_KEY cfg)) then (Returned notice_no_api_key, [])
  else if negb (env_truthy metrics_text) then (Returned notice_no_metrics, [])
  else
    let prompt := prompt_head ++ env_str metrics_text ++ prompt_tail in
    (match generate_content prompt with
     | GenText text => Returned text
     | GenRaised _ message => Returned (error_prefix ++ message)
     end,
     [prompt]).

(* ================================================================== *)
(** ** Notifier (reporter.py, lines 184-200) *)
(* ================================================================== *)

(** [range(start, stop, step)] for a positive step. *)
Fixpoint py_range_from (fuel start stop step : nat) : list nat :=
  match fuel with
  | O => []
  | S fuel' =>
      if start <? stop then start :: py_range_from fuel' (start + step) stop step
      else []
  end.

Definition py_range (start stop step : nat) : list nat :=
  py_range_from (stop - start) start stop step.

(** [s[i:j]] for [0 <= i <= j]. *)
Definition py_slice (s : str) (i j : nat) : str := firstn (j - i) (skipn i s).

(** Line 192. *)
Definition chunks (report_content : str) : list str :=
  map (fun i => py_slice report_content i (i + 1990))
      (py_range 0 (length report_content) 1990).

Definition k_content : str := Eval cbv in lit "content".

Definition discord_request (cfg : Config) (chunk : str) : http_request :=
  {| req_method := POST;
     req_url := env_str (DISCORD_WEBHOOK_URL cfg);
     req_headers := [];
     req_json := Some [(k_content, chunk)];
     req_timeout := 10 |}.

(** [response.raise_for_status()] *)
Definition raise_for_status (outcome : http_outcome) : py_result unit :=
  match outcome with
  | HttpFailure => Raised RequestException
  | HttpResponse status_code _ _ =>
      if (400 <=? status_code)%Z && (status_code <? 600)%Z
      then Raised RequestException
      else Returned tt
  end.

(** Lines 196-200: the [try] around one POST. *)
Definition post_chunk (outcome : http_outcome) : py_result unit :=
  match raise_for_status outcome with
  | Raised RequestException => Returned tt
  | r => r
  end.

(** Lines 194-200; [n] is the number of POSTs made so far. *)
Fixpoint send_chunks (cfg : Config) (http_post : nat -> http_request -> http_outcome)
    (n : nat) (l : list str) : py_result unit * list http_request :=
  match l with
  | [] => (Returned tt, [])
  | chunk :: rest =>
      let request := discord_request cfg chunk in
      match post_chunk (http_post n request) with
      | Returned _ =>
          let (r, log) := send_chunks cfg http_post (S n) rest in
          (r, request :: log)
      | Raised e => (Raised e, [request])
      end
  end.

(** The function returns together with the requests it issued. *)
Definition send_to_discord (cfg : Config)
    (http_post : nat -> http_request -> http_outcome) (report_content : str)
  : py_result unit * list http_request :=
  if negb (env_truthy (DISCORD_WEBHOOK_URL cfg)) then (Returned tt, [])
  else send_chunks cfg http_post 0 (chunks report_content).

(** The chunks that were posted, read back from the requests. *)
Definition posted_chunks (log : list http_request) : list str :=
  flat_map (fun request =>
              match req_json request with
              | Some payload => map snd payload
              | None => []
              end) log.

(* ================================================================== *)
(** ** The walk of the extractor in closed form *)
(* ================================================================== *)

(** The bodies on which the walk of lines 77-92 does not raise, read off
    the code: a target is an object, and the expression of a target that
    the code takes is a string; a panel is an object, and the targets of a
    panel that the code takes are a list; [dashboard] is an object and
    [panels] a list (when present).  These definitions and the next use
    the selection predicates of the code; the selection and the structure
    in the words of the specification are [selection] and
    [dashboard_schema] below, and are compared with them. *)
Definition target_shaped (target : json) : bool :=
  match target with
  | JObj t =>
      if target_selected t then
        match dict_get t k_expr JNull with
        | JStr _ => true
        | _ => false
        end
      else true
  | _ => false
  end.


Definition dashboard_panels (body : json) : option (list json) :=
  match body with
  | JObj top =>
      match dict_get top k_dashboard (JObj []) with
      | JObj dash =>
          match dict_get dash k_panels (JArr []) with
          | JArr panels => Some panels
          | _ => None
          end
      | _ => None
      end
  | _ => None
  end.

(** What the walk returns on such a body, as a map over the panel list: a
    target that is not hidden and has a non-empty expression gives one
    item, any other target gives none; a panel that the code takes gives
    the items of its targets in their order, any other panel gives none;
    the output is the concatenation over the panels in their order. *)
Definition spec_target_items (panel_title : json) (target : json) : list QueryItem :=
  match target with
  | JObj t =>
      match dict_lookup k_expr t with
      | Some (JStr (c :: e)) =>
          if truthy (dict_get t k_hide JNull) then []
          else [{| title := panel_title; query := expand_placeholders (c :: e) |}]
      | _ => []
      end
  | _ => []
  end.

Definition spec_panel_items (panel : json) : list QueryItem :=
  match panel with
  | JObj p =>
      match dict_lookup k_targets p with
      | Some (JArr targets) =>
          if is_prometheus_panel (dict_get p k_datasource (JObj []))
          then flat_map (spec_target_items (dict_get p k_title (JStr default_title)))
                 targets
          else []
      | _ => []
      end
  | _ => []
  end.

Definition spec_extraction (panels : list json) : list QueryItem :=
  flat_map spec_panel_items panels.

(** Line 51: the four values are set and not empty. *)
Definition config_complete (cfg : Config) (dashboard_uid : option str) : bool :=
  forallb env_truthy
    [GRAFANA_URL cfg; GRAFANA_API_KEY cfg; GRAFANA_PUBLIC_DOMAIN cfg; dashboard_uid].

(* ================================================================== *)
(** ** Example data *)
(* ================================================================== *)

(** The exceptions of a walk over a body that is not a dashboard. *)
Definition shape_error (e : exn_class) : Prop := e = AttributeError \/ e = TypeError.

Definition queries_nonempty (items : list QueryItem) : Prop :=
  Forall (fun item => query item <> []) items.

(** A series as the metric backend gives it: the labels and the pair of a
    timestamp and a sample. *)
Definition prom_series (labels : list (str * json)) (timestamp sample : json) : json :=
  JObj [(k_metric, JObj labels); (k_value, JArr [timestamp; sample])].

(** A series of the backend together with the float that its sample
    stands for. *)
Record Sample : Type := {
  s_labels : list (str * json);
  s_timestamp : json;
  s_sample : json;
  s_value : spec_float
}.

Definition sample_series (r : Sample) : json :=
  prom_series (s_labels r) (s_timestamp r) (s_sample r).

Definition sample_accepted (rt : PyRuntime) (r : Sample) : Prop :=
  py_float rt (s_sample r) = Returned (s_value r).

Module Examples.

Definition cfg : Config :=
  {| PROMETHEUS_URL := Some (lit "http://prometheus:9090");
     DISCORD_WEBHOOK_URL := Some (lit "https://discord.example/api/webhooks/1");
     GEMINI_API_KEY := Some (lit "key");
     GRAFANA_URL := Some (lit "http://grafana.monitoring.svc.cluster.local");
     GRAFANA_API_KEY := Some (lit "token");
     GRAFANA_PUBLIC_DOMAIN := Some (lit "grafana.allist.dev");
     DASHBOARD_UID := Some (lit "abcdef123") |}.

(** The same configuration with the dashboard credential not set. *)
Definition cfg_no_api_key : Config :=
  {| PROMETHEUS_URL := PROMETHEUS_URL cfg;
     DISCORD_WEBHOOK_URL := DISCORD_WEBHOOK_URL cfg;
     GEMINI_API_KEY := GEMINI_API_KEY cfg;
     GRAFANA_URL := GRAFANA_URL cfg;
     GRAFANA_API_KEY := None;
     GRAFANA_PUBLIC_DOMAIN := GRAFANA_PUBLIC_DOMAIN cfg;
     DASHBOARD_UID := DASHBOARD_UID cfg |}.

(** The same configuration with the generative-service credential not
    set. *)
Definition cfg_no_gemini_key : Config :=
  {| PROMETHEUS_URL := PROMETHEUS_URL cfg;
     DISCORD_WEBHOOK_URL := DISCORD_WEBHOOK_URL cfg;
     GEMINI_API_KEY := None;
     GRAFANA_URL := GRAFANA_URL cfg;
     GRAFANA_API_KEY := GRAFANA_API_KEY cfg;
     GRAFANA_PUBLIC_DOMAIN := GRAFANA_PUBLIC_DOMAIN cfg;
     DASHBOARD_UID := DASHBOARD_UID cfg |}.

(** The same configuration with the webhook not set. *)
Definition cfg_no_webhook : Config :=
  {| PROMETHEUS_URL := PROMETHEUS_URL cfg;
     DISCORD_WEBHOOK_URL := None;
     GEMINI_API_KEY := GEMINI_API_KEY cfg;
     GRAFANA_URL := GRAFANA_URL cfg;
     GRAFANA_API_KEY := GRAFANA_API_KEY cfg;
     GRAFANA_PUBLIC_DOMAIN := GRAFANA_PUBLIC_DOMAIN cfg;
     DASHBOARD_UID := DASHBOARD_UID cfg |}.

(** The dashboard API answers 200 with the given parsed body. *)
Definition serve (body : json) : http_request -> http_outcome :=
  fun _ => HttpResponse 200 [] (Some body).

Definition dashboard_of (panels : list json) : json :=
  JObj [(k_dashboard, JObj [(k_panels, JArr panels)])].

(** The example of section 8: one panel titled CPU with one target. *)
Definition cpu_target : json :=
  JObj [(k_expr, JStr (lit "sum(rate($__range))")); (k_hide, JBool false)].

Definition cpu_panel (datasource : list (str * json)) : json :=
  JObj ([(k_title, JStr (lit "CPU")); (k_targets, JArr [cpu_target])] ++ datasource).

Definition null_datasource : list (str * json) := [(k_datasource, JNull)].

Definition cpu_item : QueryItem :=
  {| title := JStr (lit "CPU"); query := lit "sum(rate(24h))" |}.

(** A panel with a visible, a hidden and an empty target, and a panel of
    another datasource. *)
Definition mixed_dashboard : json :=
  dashboard_of
    [ JObj [(k_title, JStr (lit "Net"));
            (k_datasource, JObj [(k_type, JStr k_prometheus)]);
            (k_targets,
             JArr [ JObj [(k_expr, JStr (lit "rate(rx[$__interval])"))];
                    JObj [(k_expr, JStr (lit "up")); (k_hide, JBool true)];
                    JObj [(k_expr, JStr [])];
                    JObj [(k_expr, JStr (lit "rate(tx[$__range])/$__interval"))] ])];
      JObj [(k_title, JStr (lit "Logs"));
            (k_datasource, JObj [(k_type, JStr (lit "loki"))]);
            (k_targets, JArr [JObj [(k_expr, JStr (lit "{job=x}"))]])];
      cpu_panel null_datasource ].

(** A body that does not have the structure of a dashboard (the targets of
    its first panel are an empty string) on which the walk returns all the
    same. *)
Definition odd_dashboard : json :=
  dashboard_of
    [ JObj [(k_datasource, JNull); (k_targets, JStr [])];
      cpu_panel null_datasource ].

(** A runtime for the examples: [float] knows the sample text 1.5 and
    rejects any other text; one and a half is printed 1.50. *)
Definition one_and_a_half : spec_float := S754_finite false 6755399441055744 (-52).

Definition runtime : PyRuntime :=
  {| float_of_str := fun s =>
       if eqb s (lit "1.5") then Returned one_and_a_half else Raised ValueError;
     float_of_int := fun _ => Raised OtherException;
     format_2f := fun _ => lit "1.50";
     py_str := fun _ => lit "?" |}.

(** Two series that the example runtime accepts: one with the name label
    and a job label, one without labels. *)
Definition total_sample : Sample :=
  {| s_labels := [];
     s_timestamp := JInt 1700000000;
     s_sample := JStr (lit "1.5");
     s_value := one_and_a_half |}.

Definition two_samples : list Sample :=
  [ {| s_labels := [(k_name, JStr (lit "up")); (lit "job", JStr (lit "node"))];
       s_timestamp := JInt 1700000000;
       s_sample := JStr (lit "1.5");
       s_value := one_and_a_half |};
    total_sample ].

(** The backend answers the first query with no series, fails on the
    second with its own exception and on any later one with another. *)
Definition failing_backend (n : nat) (q : str) : prom_outcome :=
  match n with
  | 0 => PromResult (JArr [])
  | 1 => PromRaised PrometheusApiClientException
  | _ => PromRaised OtherException
  end.

(** The backend answers the first query with a good and a bad series. *)
Definition half_good_backend (n : nat) (q : str) : prom_outcome :=
  match n with
  | 0 => PromResult (JArr [prom_series [] (JInt 1700000000) (JStr (lit "1.5"));
                           prom_series [] (JInt 1700000000) (JStr (lit "abc"))])
  | _ => PromResult (JArr [])
  end.

End Examples.

(** A series that lines 128-134 cannot read, whatever [float] does: it is
    not an object, its labels are not an object, it has no [value], or its
    [value] has no item of index 1. *)
Definition malformed_series (metric : json) : bool :=
  match metric with
  | JObj m =>
      match dict_get m k_metric (JObj []) with
      | JObj _ =>
          match dict_lookup k_value m with
          | None => true
          | Some (JArr items) => length items <? 2
          | Some (JStr s) => length s <? 2
          | Some _ => true
          end
      | _ => true
      end
  | _ => true
  end.

(* ================================================================== *)
(** ** The script (reporter.py, lines 203-222) *)
(* ================================================================== *)

(** What a run sent out: the GETs to the dashboard API, the prompts to the
    generative model and the POSTs to the webhook. *)
Record RunLog : Type := {
  log_gets : list http_request;
  log_prompts : list str;
  log_posts : list http_request
}.

(** The block under [if __name__ == "__main__"]: collect, and when there
    is a report, generate the narrative and send it. *)
Definition main (rt : PyRuntime) (cfg : Config)
    (http_get : http_request -> http_outcome)
    (custom_query : nat -> str -> prom_outcome)
    (generate_content : str -> genai_outcome)
    (http_post : nat -> http_request -> http_outcome)
  : py_result unit * RunLog :=
  let (collected, gets) := get_metrics rt cfg http_get custom_query in
  match collected with
  | Raised e =>
      (Raised e, {| log_gets := gets; log_prompts := []; log_posts := [] |})
  | Returned metrics_data =>
      if env_truthy metrics_data then
        let (generated, prompts) :=
          generate_report_with_gemini cfg generate_content metrics_data in
        match generated with
        | Raised e =>
            (Raised e,
             {| log_gets := gets; log_prompts := prompts; log_posts := [] |})
        | Returned gemini_report =>
            let (sent, posts) := send_to_discord cfg http_post gemini_report in
            (sent,
             {| log_gets := gets; log_prompts := prompts; log_posts := posts |})
        end
      else
        (Returned tt, {| log_gets := gets; log_prompts := []; log_posts := [] |})
  end.

(** Line 89 with the two [replace] calls in the other order. *)
Definition substitute_interval_first (query : str) : str :=
  replace tok_range lit_24h (replace tok_interval lit_5m query).

(** The panels that the walk of lines 77-79 visits in a body whose
    [dashboard.panels] is a list. *)
Definition body_panels (body : json) : list json :=
  match dashboard_panels body with
  | Some panels => panels
  | None => []
  end.

(* ================================================================== *)
(** ** The functions with their console output *)
(* ================================================================== *)

(** The definitions above give each function in a run in which every
    [print] succeeds.  The module [Console] gives the same functions, under
    the same names, with every [print] of the source in its place.
    [sys.stdout] is a UTF-8 stream with the strict error handler, the
    default of Python 3: a text can be written exactly when it holds no
    surrogate code point, and [print] raises [UnicodeEncodeError]
    otherwise.  A [str] of Python can hold such a code point: the JSON
    escape of a lone surrogate is accepted by [response.json()].  The
    oracles carry the text [str(e)] of the exceptions they raise, since
    the handlers print it. *)
Module Console.

Definition surrogate (c : char) : bool := (55296 <=? c)%N && (c <=? 57343)%N.

Definition encodable (s : str) : bool := forallb (fun c => negb (surrogate c)) s.

(** [f"{v}"] of a [str] is the [str]; of any other value it goes through
    [repr], which escapes the surrogates. *)
Definition value_encodable (v : json) : bool :=
  match v with
  | JStr s => encodable s
  | _ => true
  end.

(** [print(text)] *)
Definition print (text : str) : py_result unit :=
  if encodable text then Returned tt else Raised UnicodeEncodeError.

(** [print(f"{prefix}{v}{suffix}")] *)
Definition print_value (prefix : str) (v : json) (suffix : str) : py_result unit :=
  if encodable prefix && value_encodable v && encodable suffix
  then Returned tt else Raised UnicodeEncodeError.

Definition msg_config_missing : str := Eval cbv in lit "ERROR: Grafana 관련 환경변수(URL, API_KEY, PUBLIC_DOMAIN, DASHBOARD_UID)가 모두 설정되지 않았습니다.".
Definition msg_request_open : str := Eval cbv in lit "Grafana API에 요청을 보냅니다 (Host: ".
Definition msg_request_mid : str := Eval cbv in lit "): ".
Definition msg_status : str := Eval cbv in lit "ERROR: Grafana로부터 에러 응답 코드를 받았습니다: ".
Definition msg_body_open : str := Eval cbv in lit "응답 내용: ".
Definition msg_body_close : str := Eval cbv in lit "...".
Definition msg_found_open : str := Eval cbv in lit "  - 발견: [".
Definition msg_found_close : str := Eval cbv in lit "] 패널의 쿼리".
Definition msg_network_error : str := Eval cbv in lit "ERROR: Grafana API 호출 중 네트워크 에러 발생: ".
Definition msg_json_error : str := Eval cbv in lit "ERROR: Grafana 응답을 JSON으로 파싱하는 데 실패했습니다: ".
Definition msg_no_queries : str := Eval cbv in lit "WARNING: Grafana에서 쿼리를 가져오지 못했거나, 유효한 Prometheus 패널이 없습니다.".
Definition msg_running_open : str := Eval cbv in lit "Prometheus에 쿼리 실행 중: [".
Definition msg_running_close : str := Eval cbv in lit "]".
Definition msg_query_failed : str := Eval cbv in lit "  - 쿼리 실패: ".
Definition msg_unknown_error : str := Eval cbv in lit "  - 알 수 없는 에러: ".
Definition msg_no_api_key : str := Eval cbv in lit "ERROR: GEMINI_API_KEY가 설정되지 않아 리포트를 생성할 수 없습니다.".
Definition msg_gemini_error : str := Eval cbv in lit "ERROR: Gemini 리포트 생성 중 에러 발생: ".
Definition msg_no_webhook : str := Eval cbv in lit "WARNING: Discord 웹훅 URL이 설정되지 않아 전송을 건너뜁니다. 아래는 생성된 리포트 내용입니다:".
Definition msg_discord_error : str := Eval cbv in lit "ERROR: Discord 전송 중 에러 발생: ".
Definition msg_start : str := Eval cbv in lit "자동화된 서버 상태 보고서 생성을 시작합니다...".
Definition msg_collected : str := Eval cbv in lit "모든 메트릭 데이터 수집 완료. Gemini에게 분석을 요청합니다.".
Definition msg_generated : str := Eval cbv in lit "Gemini 리포트 생성 완료. Discord로 전송합니다.".
Definition msg_sent : str := Eval cbv in lit "보고서 전송 완료.".
Definition msg_aborted : str := Eval cbv in lit "메트릭 수집에 실패하여 보고서 생성을 중단합니다.".
Definition msg_end : str := Eval cbv in lit "스크립트 실행을 종료합니다.".

Definition banner : str := repeat 61%N 50.

(** [response.json()]: the parsed body, or a [ValueError] of text
    [message].  Whichever of the two handlers catches it prints the text
    and returns [[]]; the model takes the handler of line 99. *)
Inductive json_reply : Type :=
| Parsed (body : json)
| NotJson (message : str).

(** [requests.get]: a response, or a [RequestException] of text
    [message]. *)
Inductive http_reply : Type :=
| Reply (status_code : Z) (text : str) (body_json : json_reply)
| RequestFailed (message : str).

(** Lines 197-198, [requests.post] followed by [raise_for_status]: both
    return, or one of them raises a [RequestException] of text [message]
    (for [raise_for_status], the [HTTPError] of a status from 400 to
    599). *)
Inductive post_reply : Type :=
| Posted
| PostFailed (message : str).

(** A call of [prom.custom_query]: the series, or an exception of class [e]
    and text [message]. *)
Inductive prom_reply : Type :=
| Series (metrics : json)
| QueryFailed (e : exn_class) (message : str).

Definition forget_http (reply : http_reply) : http_outcome :=
  match reply with
  | Reply status_code text (Parsed body) => HttpResponse status_code text (Some body)
  | Reply status_code text (NotJson _) => HttpResponse status_code text None
  | RequestFailed _ => HttpFailure
  end.

Definition forget_prom (reply : prom_reply) : prom_outcome :=
  match reply with
  | Series metrics => PromResult metrics
  | QueryFailed e _ => PromRaised e
  end.

(** *** Extractor (lines 49-101) *)

(** Lines 86-92: the item is appended and the title is printed.  The list
    is local to the call: when the [print] raises, the handler returns
    [[]] and the list is lost, with or without the item. *)
Definition extract_target (panel_title : json) (queries_with_titles : list QueryItem)
    (target : json) : py_result (list QueryItem) :=
  match target with
  | JObj t =>
      if target_selected t then
        match dict_get t k_expr JNull with
        | JStr q =>
            _ <- print_value msg_found_open panel_title msg_found_close ;;
            Returned (queries_with_titles
                      ++ [{| title := panel_title;
                             query := substitute_grafana_vars q |}])
        | _ => Raised AttributeError
        end
      else Returned queries_with_titles
  | _ => Raised AttributeError
  end.

Definition extract_panel (queries_with_titles : list QueryItem) (panel : json)
  : py_result (list QueryItem) :=
  match panel with
  | JObj p =>
      let panel_title := dict_get p k_title (JStr default_title) in
      if panel_selected p then
        targets <- py_iter (dict_get p k_targets JNull) ;;
        for_each (extract_target panel_title) queries_with_titles targets
      else Returned queries_with_titles
  | _ => Raised AttributeError
  end.

Definition extract_queries (dashboard_data : json) : py_result (list QueryItem) :=
  match dashboard_data with
  | JObj top =>
      match dict_get top k_dashboard (JObj []) with
      | JObj dash =>
          panels <- py_iter (dict_get dash k_panels (JArr [])) ;;
          for_each extract_panel [] panels
      | _ => Raised AttributeError
      end
  | _ => Raised AttributeError
  end.

(** Lines 99-101 for the exceptions of the [print] calls inside the [try].
    [UnicodeEncodeError] is a [ValueError]; its text quotes the character
    that could not be written by its escape, so the [print] of line 100
    succeeds on it. *)
Definition except_value_error (r : py_result (list QueryItem))
  : py_result (list QueryItem) :=
  match r with
  | Raised ValueError => Returned []
  | Raised UnicodeEncodeError => Returned []
  | _ => r
  end.

(** The text of line 64. *)
Definition request_line (cfg : Config) (dashboard_uid : option str) : str :=
  msg_request_open ++ env_str (GRAFANA_PUBLIC_DOMAIN cfg) ++ msg_request_mid
  ++ req_url (grafana_request cfg dashboard_uid).

Definition get_all_queries_from_grafana (cfg : Config)
    (http_get : http_request -> http_reply) (dashboard_uid : option str)
  : py_result (list QueryItem) * list http_request :=
  if negb (forallb env_truthy
             [GRAFANA_URL cfg; GRAFANA_API_KEY cfg; GRAFANA_PUBLIC_DOMAIN cfg;
              dashboard_uid])
  then (_ <- print msg_config_missing ;; Returned [], [])
  else
    let request := grafana_request cfg dashboard_uid in
    match print (request_line cfg dashboard_uid) with
    | Raised e => (Raised e, [])
    | Returned _ =>
        (match http_get request with
         | RequestFailed message =>
             _ <- print (msg_network_error ++ message) ;;
             Returned []
         | Reply status_code text body_json =>
             if negb (status_code =? 200)%Z then
               except_value_error
                 (_ <- print_value msg_status (JInt status_code) [] ;;
                  _ <- print (msg_body_open ++ firstn 500 text ++ msg_body_close) ;;
                  Returned [])
             else
               match body_json with
               | NotJson message =>
                   _ <- print (msg_json_error ++ message) ;;
                   Returned []
               | Parsed dashboard_data =>
                   except_value_error (extract_queries dashboard_data)
               end
         end,
         [request])
    end.

(** *** Collector (lines 104-146) *)

(** Lines 115-144: one turn of the loop.  [queries] are the queries sent to
    the backend so far.  The texts of the exceptions raised by lines
    127-134 and by the [print] of line 120 quote their data through [repr],
    so the [print] of line 143 succeeds on them; the text of an exception
    of the backend call is the oracle's. *)
Definition collect_query (rt : PyRuntime) (custom_query : nat -> str -> prom_reply)
    (report_data : str) (queries : list str) (item : QueryItem)
  : py_result str * list str :=
  let report_data := report_data ++ section_head rt item in
  match print_value msg_running_open (title item) msg_running_close with
  | Raised _ => (Returned (report_data ++ unknown_error_marker), queries)
  | Returned _ =>
      let sent := queries ++ [query item] in
      match custom_query (length queries) (query item) with
      | QueryFailed e message =>
          (_ <- print (match e with
                       | PrometheusApiClientException => msg_query_failed
                       | _ => msg_unknown_error
                       end ++ message) ;;
           Returned (report_data ++ except_marker e),
           sent)
      | Series metrics =>
          if negb (truthy metrics) then (Returned (report_data ++ no_data_marker), sent)
          else
            match py_iter metrics with
            | Raised e => (Returned (report_data ++ except_marker e), sent)
            | Returned series =>
                match append_series rt report_data series with
                | (report_data, None) => (Returned (report_data ++ nl), sent)
                | (report_data, Some e) => (Returned (report_data ++ except_marker e), sent)
                end
            end
      end
  end.

Fixpoint collect_from (rt : PyRuntime) (custom_query : nat -> str -> prom_reply)
    (report_data : str) (queries : list str) (all_queries : list QueryItem)
  : py_result str * list str :=
  match all_queries with
  | [] => (Returned report_data, queries)
  | item :: rest =>
      match collect_query rt custom_query report_data queries item with
      | (Returned report_data, queries) =>
          collect_from rt custom_query report_data queries rest
      | (Raised e, queries) => (Raised e, queries)
      end
  end.

(** The function returns its result, the GETs issued and the queries sent
    to the backend. *)
Definition get_metrics (rt : PyRuntime) (cfg : Config)
    (http_get : http_request -> http_reply)
    (custom_query : nat -> str -> prom_reply)
  : py_result (option str) * list http_request * list str :=
  let (r, gets) := get_all_queries_from_grafana cfg http_get (DASHBOARD_UID cfg) in
  match r with
  | Raised e => (Raised e, gets, [])
  | Returned [] => (_ <- print msg_no_queries ;; Returned None, gets, [])
  | Returned all_queries =>
      let (collected, queries) :=
        collect_from rt custom_query (report_header cfg) [] all_queries in
      (report_data <- collected ;; Returned (Some report_data), gets, queries)
  end.

(** *** Generator (lines 149-181) *)

Definition generate_report_with_gemini (cfg : Config)
    (generate_content : str -> genai_outcome) (metrics_text : option str)
  : py_result str * list str :=
  if negb (env_truthy (GEMINI_API_KEY cfg))
  then (_ <- print msg_no_api_key ;; Returned notice_no_api_key, [])
  else if negb (env_truthy metrics_text) then (Returned notice_no_metrics, [])
  else
    let prompt := prompt_head ++ env_str metrics_text ++ prompt_tail in
    (match generate_content prompt with
     | GenText text => Returned text
     | GenRaised _ message =>
         _ <- print (msg_gemini_error ++ message) ;;
         Returned (error_prefix ++ message)
     end,
     [prompt]).

(** *** Notifier (lines 184-200) *)

(** Lines 196-200: the [try] around one POST. *)
Definition post_chunk (reply : post_reply) : py_result unit :=
  match reply with
  | PostFailed message => print (msg_discord_error ++ message)
  | Posted => Returned tt
  end.

(** Lines 194-200; [n] is the number of POSTs made so far. *)
Fixpoint send_chunks (cfg : Config) (http_post : nat -> http_request -> post_reply)
    (n : nat) (l : list str) : py_result unit * list http_request :=
  match l with
  | [] => (Returned tt, [])
  | chunk :: rest =>
      let request := discord_request cfg chunk in
      match post_chunk (http_post n request) with
      | Returned _ =>
          let (r, log) := send_chunks cfg http_post (S n) rest in
          (r, request :: log)
      | Raised e => (Raised e, [request])
      end
  end.

Definition send_to_discord (cfg : Config)
    (http_post : nat -> http_request -> post_reply) (report_content : str)
  : py_result unit * list http_request :=
  if negb (env_truthy (DISCORD_WEBHOOK_URL cfg))
  then (_ <- print msg_no_webhook ;; print report_content, [])
  else send_chunks cfg http_post 0 (chunks report_content).

(** *** The script (lines 203-222) *)

Record RunLog : Type := {
  log_gets : list http_request;
  log_queries : list str;
  log_prompts : list str;
  log_posts : list http_request
}.

Definition opening : py_result unit :=
  _ <- print banner ;; _ <- print msg_start ;; print banner.

Definition closing : py_result unit :=
  _ <- print banner ;; _ <- print msg_end ;; print banner.

Definition main (rt : PyRuntime) (cfg : Config)
    (http_get : http_request -> http_reply)
    (custom_query : nat -> str -> prom_reply)
    (generate_content : str -> genai_outcome)
    (http_post : nat -> http_request -> post_reply)
  : py_result unit * RunLog :=
  let log gets queries prompts posts :=
    {| log_gets := gets; log_queries := queries;
       log_prompts := prompts; log_posts := posts |} in
  match opening with
  | Raised e => (Raised e, log [] [] [] [])
  | Returned _ =>
      match get_metrics rt cfg http_get custom_query with
      | (Raised e, gets, queries) => (Raised e, log gets queries [] [])
      | (Returned metrics_data, gets, queries) =>
          if env_truthy metrics_data then
            match print (nl ++ msg_collected) with
            | Raised e => (Raised e, log gets queries [] [])
            | Returned _ =>
                match generate_report_with_gemini cfg generate_content metrics_data with
                | (Raised e, prompts) => (Raised e, log gets queries prompts [])
                | (Returned gemini_report, prompts) =>
                    match print (nl ++ msg_generated) with
                    | Raised e => (Raised e, log gets queries prompts [])
                    | Returned _ =>
                        match send_to_discord cfg http_post gemini_report with
                        | (Raised e, posts) => (Raised e, log gets queries prompts posts)
                        | (Returned _, posts) =>
                            (_ <- print (nl ++ msg_sent) ;; closing,
                             log gets queries prompts posts)
                        end
                    end
                end
            end
          else
            (_ <- print (nl ++ msg_aborted) ;; closing, log gets queries [] [])
      end
  end.

End Console.

(* ================================================================== *)
(** ** The selection, in the words of the specification *)
(* ================================================================== *)

(** Section 4.1: the datasource is null or explicitly typed as the
    expected metric backend.  The specification also lets a panel without
    a [datasource] field qualify; [claimed_datasource] is that reading. *)
Definition datasource_qualifies (p : list (str * json)) : bool :=
  match dict_lookup k_datasource p with
  | Some JNull => true
  | Some (JObj d) =>
      match dict_lookup k_type d with
      | Some (JStr s) => eqb s k_prometheus
      | _ => false
      end
  | _ => false
  end.


Definition hidden (t : list (str * json)) : bool :=
  match dict_lookup k_hide t with
  | Some flag => truthy flag
  | None => false
  end.

(** One item for a target that is not hidden and has a non-empty
    expression, none for any other. *)
Definition target_items (panel_title : json) (target : json) : list QueryItem :=
  match target with
  | JObj t =>
      match dict_lookup k_expr t with
      | Some (JStr (c :: e)) =>
          if hidden t then []
          else [{| title := panel_title; query := expand_placeholders (c :: e) |}]
      | _ => []
      end
  | _ => []
  end.

Definition title_of (p : list (str * json)) : json :=
  match dict_lookup k_title p with
  | Some v => v
  | None => JStr default_title
  end.

(** The items of the targets, in their order, for a panel with targets and
    a qualifying datasource; none for any other panel. *)
Definition panel_items (qualifies : list (str * json) -> bool) (panel : json)
  : list QueryItem :=
  match panel with
  | JObj p =>
      match dict_lookup k_targets p with
      | Some (JArr targets) =>
          if qualifies p then flat_map (target_items (title_of p)) targets else []
      | _ => []
      end
  | _ => []
  end.

Definition selection (qualifies : list (str * json) -> bool) (panels : list json)
  : list QueryItem :=
  flat_map (panel_items qualifies) panels.



Definition schema_panels (body : json) : list json :=
  match body with
  | JObj top =>
      match dict_lookup k_dashboard top with
      | Some (JObj dash) =>
          match dict_lookup k_panels dash with
          | Some (JArr panels) => panels
          | _ => []
          end
      | _ => []
      end
  | _ => []
  end.


(** The title of every panel can be written to the console. *)
Definition titles_encodable (panels : list json) : bool :=
  forallb (fun panel =>
             match panel with
             | JObj p => Console.value_encodable (title_of p)
             | _ => true
             end) panels.


(** The texts that the extractor prints outside the protection of its
    handlers: the request line (line 64), and in the handlers the text of a
    network error (line 97) or of a body that is not JSON (line 100). *)
Definition unprotected_texts_encodable (cfg : Config) (reply : Console.http_reply)
    (dashboard_uid : option str) : bool :=
  Console.encodable (Console.request_line cfg dashboard_uid)
  && match reply with
     | Console.RequestFailed message => Console.encodable message
     | Console.Reply status_code _ (Console.NotJson message) =>
         negb (status_code =? 200)%Z || Console.encodable message
     | Console.Reply _ _ (Console.Parsed _) => true
     end.

(* ================================================================== *)
(** ** Example data for the console *)
(* ================================================================== *)

Module ConsoleExamples.

(** The dashboard API answers 200 with the given parsed body. *)
Definition serve (body : json) : http_request -> Console.http_reply :=
  fun _ => Console.Reply 200 [] (Console.Parsed body).

(** A text that cannot be written: the lone surrogate U+D83D. *)
Definition lone_surrogate : str := [55357%N].

(** The CPU panel of section 8 with [datasource: null] and a title that
    holds a lone surrogate. *)
Definition unprintable_panel : json :=
  JObj [(k_title, JStr lone_surrogate);
        (k_datasource, JNull);
        (k_targets, JArr [Examples.cpu_target])].

(** The backend answers the first query with no series, fails on the
    second with its own exception and on any later one with another. *)
Definition failing_backend (n : nat) (q : str) : Console.prom_reply :=
  match n with
  | 0 => Console.Series (JArr [])
  | 1 => Console.QueryFailed PrometheusApiClientException (lit "HTTP Status Code 400")
  | _ => Console.QueryFailed OtherException (lit "connection refused")
  end.


Definition three_items : list QueryItem :=
  [ {| title := JStr (lit "Net"); query := lit "rate(rx[5m])" |};
    {| title := JStr (lit "Net"); query := lit "rate(tx[24h])/5m" |};
    Examples.cpu_item ].

End ConsoleExamples.

(* ================================================================== *)
(** ** Facts about Python strings *)
(* ================================================================== *)

Lemma startswith_app (p r : str) : startswith p (p ++ r) = true.
Proof.
  induction p as [|a p IH]; simpl; [reflexivity|].
  now rewrite N.eqb_refl, IH.
Qed.

Lemma startswith_split (p s : str) :
  startswith p s = true -> s = p ++ skipn (length p) s.
Proof.
  revert s; induction p as [|a p IH]; intros s H; simpl in *; [reflexivity|].
  destruct s as [|c s]; [discriminate|].
  apply andb_true_iff in H as [Hc Hp].
  apply N.eqb_eq in Hc; subst c.
  f_equal. now apply IH.
Qed.

Lemma skipn_app_exact (A : Type) (p r : list A) : skipn (length p) (p ++ r) = r.
Proof. induction p; simpl; auto. Qed.

Lemma contains_cons (p : str) (c : char) (s : str) :
  contains p (c :: s) = startswith p (c :: s) || contains p s.
Proof. reflexivity. Qed.

Lemma contains_app_r (p y x : str) :
  contains p x = true -> contains p (y ++ x) = true.
Proof.
  intros H; induction y as [|c y IH]; simpl; [exact H|].
  rewrite IH. apply orb_true_r.
Qed.

Lemma contains_of_startswith (p s : str) :
  startswith p s = true -> contains p s = true.
Proof. intros H; destruct s; simpl in *; rewrite H; reflexivity. Qed.

Lemma replace_from_skip (old new : str) (k : nat) (s : str) :
  replace_from old new k s = replace_from old new 0 (skipn k s).
Proof.
  revert k; induction s as [|c s IH]; intros k.
  - destruct k; reflexivity.
  - destruct k as [|k]; [reflexivity|]. simpl skipn.
    change (replace_from old new (S k) (c :: s)) with (replace_from old new k s).
    apply IH.
Qed.

Lemma expand_placeholders_from_skip (k : nat) (s : str) :
  expand_placeholders_from k s = expand_placeholders (skipn k s).
Proof.
  revert k; induction s as [|c s IH]; intros k.
  - destruct k; reflexivity.
  - destruct k as [|k]; [reflexivity|]. simpl skipn.
    change (expand_placeholders_from (S k) (c :: s))
      with (expand_placeholders_from k s).
    apply IH.
Qed.

(** *** Left-to-right token scanners

    [replace] with a token that begins with [$], and the one-pass
    expansion of the specification, are instances of one scheme: a
    function [F] that, reading from the left, exchanges the token chosen by
    a matcher [m] and copies any other character.  Every token starts with
    the dollar sign and has no other dollar sign; the inserted literals
    have none at all. *)

Section Scanner.

Variable m : str -> option (str * str).
Variable F : str -> str.

Hypothesis F_nil : F [] = [].
Hypothesis F_hit : forall s old new,
    m s = Some (old, new) -> F s = new ++ F (skipn (length old) s).
Hypothesis F_miss : forall c s,
    m (c :: s) = None -> F (c :: s) = c :: F s.
Hypothesis m_sound : forall s old new,
    m s = Some (old, new) ->
    startswith old s = true /\
    (exists tl, old = dollar :: tl) /\
    (exists n0 nt, new = n0 :: nt) /\
    ~ In dollar new.

Lemma scanner_hit_dollar c s old new :
  m (c :: s) = Some (old, new) -> c = dollar.
Proof.
  intros H. destruct (m_sound _ _ _ H) as (Hs & (tl & ->) & _).
  cbn [startswith] in Hs. apply andb_true_iff in Hs as [Hc _].
  apply N.eqb_eq in Hc. now subst.
Qed.

Lemma scanner_copy c s : c <> dollar -> F (c :: s) = c :: F s.
Proof.
  intros Hc. apply F_miss.
  destruct (m (c :: s)) as [[old new]|] eqn:E; [|reflexivity].
  now apply scanner_hit_dollar in E.
Qed.

Lemma scanner_copy_app p s : ~ In dollar p -> F (p ++ s) = p ++ F s.
Proof.
  induction p as [|a p IH]; intros Hp; simpl; [reflexivity|].
  rewrite scanner_copy.
  - f_equal. apply IH. intros Hin. apply Hp. now right.
  - intros ->. apply Hp. now left.
Qed.

Lemma scanner_length_lt s old new :
  m s = Some (old, new) -> length (skipn (length old) s) < length s.
Proof.
  intros H. destruct (m_sound _ _ _ H) as (Hs & (tl & ->) & _).
  apply startswith_split in Hs.
  rewrite Hs at 2. rewrite length_app. simpl. lia.
Qed.

(** A word without dollar sign and without the first character of an
    inserted literal starts the output exactly when it starts the input. *)
Lemma scanner_keeps_prefix q :
  ~ In dollar q ->
  (forall s old new n0 nt, m s = Some (old, new) -> new = n0 :: nt -> ~ In n0 q) ->
  forall s, startswith q (F s) = startswith q s.
Proof.
  induction q as [|a q IH]; intros Hq Hn s; [reflexivity|].
  destruct s as [|c s]; [now rewrite F_nil|].
  destruct (m (c :: s)) as [[old new]|] eqn:E.
  - pose proof (scanner_hit_dollar _ _ _ _ E) as ->.
    destruct (m_sound _ _ _ E) as (_ & _ & (n0 & nt & ->) & _).
    rewrite (F_hit _ _ _ E). cbn [startswith app].
    replace (a =? n0)%N with false.
    2:{ symmetry. apply N.eqb_neq. intros ->.
        apply (Hn _ _ _ _ _ E eq_refl). now left. }
    replace (a =? dollar)%N with false; [reflexivity|].
    symmetry. apply N.eqb_neq. intros ->. apply Hq. now left.
  - rewrite (F_miss _ _ E). cbn [startswith]. f_equal.
    apply IH.
    + intros Hin. apply Hq. now right.
    + intros s0 old new n0 nt H1 H2 Hin.
      apply (Hn _ _ _ _ _ H1 H2). now right.
Qed.

Lemma contains_past_plain tl p x :
  ~ In dollar p ->
  contains (dollar :: tl) (p ++ x) = contains (dollar :: tl) x.
Proof.
  induction p as [|a p IH]; intros Hp; [reflexivity|].
  simpl app. rewrite contains_cons, IH.
  - cbn [startswith].
    replace (dollar =? a)%N with false; [reflexivity|].
    symmetry. apply N.eqb_neq. intros <-. apply Hp. now left.
  - intros Hin. apply Hp. now right.
Qed.

(** A token that the matcher never leaves behind does not occur in the
    output. *)
Lemma scanner_no_occurrence tl :
  ~ In dollar tl ->
  (forall s old new n0 nt, m s = Some (old, new) -> new = n0 :: nt -> ~ In n0 tl) ->
  (forall c s, m (c :: s) = None -> startswith (dollar :: tl) (c :: s) = false) ->
  forall s, contains (dollar :: tl) (F s) = false.
Proof.
  intros Htl Hn Hmiss s.
  remember (length s) as n eqn:Hlen.
  revert s Hlen. induction n as [n IH] using lt_wf_ind. intros s Hlen.
  destruct s as [|c s]; [now rewrite F_nil|].
  destruct (m (c :: s)) as [[old new]|] eqn:E.
  - rewrite (F_hit _ _ _ E).
    destruct (m_sound _ _ _ E) as (_ & _ & _ & Hnew).
    rewrite contains_past_plain by exact Hnew.
    apply (IH (length (skipn (length old) (c :: s)))); [|reflexivity].
    subst n. now apply scanner_length_lt with (new := new).
  - rewrite (F_miss _ _ E), contains_cons.
    rewrite (IH (length s)) by (subst n; simpl; lia || reflexivity).
    rewrite orb_false_r.
    pose proof (Hmiss _ _ E) as Hm. cbn [startswith] in Hm |- *.
    rewrite scanner_keeps_prefix by assumption. exact Hm.
Qed.

End Scanner.

(** *** [replace] and the one-pass expansion as scanners *)

Lemma replace_hit (o : char) (old new s : str) :
  startswith (o :: old) s = true ->
  replace (o :: old) new s
  = new ++ replace (o :: old) new (skipn (length (o :: old)) s).
Proof.
  intros H. destruct s as [|c s]; [discriminate|].
  unfold replace. cbn [replace_from]. rewrite H.
  f_equal. rewrite replace_from_skip. cbn [length skipn Nat.sub].
  now rewrite Nat.sub_0_r.
Qed.

Lemma replace_miss (o : char) (old new : str) (c : char) (s : str) :
  startswith (o :: old) (c :: s) = false ->
  replace (o :: old) new (c :: s) = c :: replace (o :: old) new s.
Proof. intros H. unfold replace. cbn [replace_from]. now rewrite H. Qed.

Lemma expand_hit_range (s : str) :
  startswith tok_range s = true ->
  expand_placeholders s
  = lit_24h ++ expand_placeholders (skipn (length tok_range) s).
Proof.
  intros H. destruct s as [|c s]; [discriminate|].
  unfold expand_placeholders at 1. cbn [expand_placeholders_from].
  rewrite H. f_equal. now rewrite expand_placeholders_from_skip.
Qed.

Lemma expand_hit_interval (s : str) :
  startswith tok_range s = false ->
  startswith tok_interval s = true ->
  expand_placeholders s
  = lit_5m ++ expand_placeholders (skipn (length tok_interval) s).
Proof.
  intros H0 H. destruct s as [|c s]; [discriminate|].
  unfold expand_placeholders at 1. cbn [expand_placeholders_from].
  rewrite H0, H. f_equal. now rewrite expand_placeholders_from_skip.
Qed.

Lemma expand_miss (c : char) (s : str) :
  startswith tok_range (c :: s) = false ->
  startswith tok_interval (c :: s) = false ->
  expand_placeholders (c :: s) = c :: expand_placeholders s.
Proof.
  intros H0 H. unfold expand_placeholders. cbn [expand_placeholders_from].
  now rewrite H0, H.
Qed.

Ltac not_in_word :=
  cbv [In tok_range tok_interval tail_range tail_interval lit_24h lit_5m dollar];
  intuition (try discriminate; try congruence).

Lemma match_range_sound s old new :
  match_one tok_range lit_24h s = Some (old, new) ->
  startswith old s = true /\ (exists tl, old = dollar :: tl) /\
  (exists n0 nt, new = n0 :: nt) /\ ~ In dollar new.
Proof.
  unfold match_one. destruct (startswith tok_range s) eqn:E; [|discriminate].
  intros [= <- <-]. repeat split; [exact E|eexists; reflexivity| |not_in_word].
  do 2 eexists; reflexivity.
Qed.

Lemma match_interval_sound s old new :
  match_one tok_interval lit_5m s = Some (old, new) ->
  startswith old s = true /\ (exists tl, old = dollar :: tl) /\
  (exists n0 nt, new = n0 :: nt) /\ ~ In dollar new.
Proof.
  unfold match_one. destruct (startswith tok_interval s) eqn:E; [|discriminate].
  intros [= <- <-]. repeat split; [exact E|eexists; reflexivity| |not_in_word].
  do 2 eexists; reflexivity.
Qed.

Lemma match_both_sound s old new :
  match_both s = Some (old, new) ->
  startswith old s = true /\ (exists tl, old = dollar :: tl) /\
  (exists n0 nt, new = n0 :: nt) /\ ~ In dollar new.
Proof.
  unfold match_both. destruct (startswith tok_range s) eqn:E.
  - intros [= <- <-]. repeat split; [exact E|eexists; reflexivity| |not_in_word].
    do 2 eexists; reflexivity.
  - destruct (startswith tok_interval s) eqn:E'; [|discriminate].
    intros [= <- <-]. repeat split; [exact E'|eexists; reflexivity| |not_in_word].
    do 2 eexists; reflexivity.
Qed.

Lemma replace_one_hit (o : char) (old new s old' new' : str) :
  match_one (o :: old) new s = Some (old', new') ->
  replace (o :: old) new s
  = new' ++ replace (o :: old) new (skipn (length old') s).
Proof.
  unfold match_one. destruct (startswith (o :: old) s) eqn:E; [|discriminate].
  intros [= <- <-]. now apply replace_hit.
Qed.

Lemma replace_one_miss (o : char) (old new : str) (c : char) (s : str) :
  match_one (o :: old) new (c :: s) = None ->
  replace (o :: old) new (c :: s) = c :: replace (o :: old) new s.
Proof.
  unfold match_one. destruct (startswith (o :: old) (c :: s)) eqn:E; [discriminate|].
  intros _. now apply replace_miss.
Qed.

Lemma expand_both_hit (s old new : str) :
  match_both s = Some (old, new) ->
  expand_placeholders s = new ++ expand_placeholders (skipn (length old) s).
Proof.
  unfold match_both. destruct (startswith tok_range s) eqn:E.
  - intros [= <- <-]. now apply expand_hit_range.
  - destruct (startswith tok_interval s) eqn:E'; [|discriminate].
    intros [= <- <-]. now apply expand_hit_interval.
Qed.

Lemma expand_both_miss (c : char) (s : str) :
  match_both (c :: s) = None ->
  expand_placeholders (c :: s) = c :: expand_placeholders s.
Proof.
  unfold match_both. destruct (startswith tok_range (c :: s)) eqn:E; [discriminate|].
  destruct (startswith tok_interval (c :: s)) eqn:E'; [discriminate|].
  intros _. now apply expand_miss.
Qed.

(** *** The two passes of line 89 *)

Lemma range_pass_hit (s : str) :
  startswith tok_range s = true ->
  replace tok_range lit_24h s
  = lit_24h ++ replace tok_range lit_24h (skipn (length tok_range) s).
Proof. exact (replace_hit dollar tail_range lit_24h s). Qed.

Lemma range_pass_miss (c : char) (s : str) :
  startswith tok_range (c :: s) = false ->
  replace tok_range lit_24h (c :: s) = c :: replace tok_range lit_24h s.
Proof. exact (replace_miss dollar tail_range lit_24h c s). Qed.

Lemma interval_pass_hit (s : str) :
  startswith tok_interval s = true ->
  replace tok_interval lit_5m s
  = lit_5m ++ replace tok_interval lit_5m (skipn (length tok_interval) s).
Proof. exact (replace_hit dollar tail_interval lit_5m s). Qed.

Lemma interval_pass_miss (c : char) (s : str) :
  startswith tok_interval (c :: s) = false ->
  replace tok_interval lit_5m (c :: s) = c :: replace tok_interval lit_5m s.
Proof. exact (replace_miss dollar tail_interval lit_5m c s). Qed.

Lemma range_pass_copy_app (p s : str) :
  ~ In dollar p ->
  replace tok_range lit_24h (p ++ s) = p ++ replace tok_range lit_24h s.
Proof.
  apply (scanner_copy_app (match_one tok_range lit_24h)).
  - exact (replace_one_miss dollar tail_range lit_24h).
  - exact match_range_sound.
Qed.

Lemma interval_pass_copy_app (p s : str) :
  ~ In dollar p ->
  replace tok_interval lit_5m (p ++ s) = p ++ replace tok_interval lit_5m s.
Proof.
  apply (scanner_copy_app (match_one tok_interval lit_5m)).
  - exact (replace_one_miss dollar tail_interval lit_5m).
  - exact match_interval_sound.
Qed.

Lemma range_pass_keeps_prefix (q s : str) :
  ~ In dollar q -> ~ In 50%N q ->
  startswith q (replace tok_range lit_24h s) = startswith q s.
Proof.
  intros Hq H2.
  apply (scanner_keeps_prefix (match_one tok_range lit_24h)); trivial.
  - exact (replace_one_hit dollar tail_range lit_24h).
  - exact (replace_one_miss dollar tail_range lit_24h).
  - exact match_range_sound.
  - intros s0 old new n0 nt H ->. unfold match_one in H.
    destruct (startswith tok_range s0); [|discriminate].
    injection H as _ <- _. exact H2.
Qed.

Lemma token_tail_shorter (p r : str) (c : char) (s : str) :
  c :: s = p ++ r -> p <> [] -> length r < length (c :: s).
Proof.
  intros -> Hp. rewrite length_app. destruct p; [congruence|simpl; lia].
Qed.

Lemma substitute_is_expand (s : str) :
  substitute_grafana_vars s = expand_placeholders s.
Proof.
  unfold substitute_grafana_vars.
  remember (length s) as n eqn:Hn. revert s Hn.
  induction n as [n IH] using lt_wf_ind; intros s Hn.
  destruct s as [|c s]; [reflexivity|].
  destruct (startswith tok_range (c :: s)) eqn:E1.
  - pose proof (startswith_split _ _ E1) as Hs.
    rewrite (range_pass_hit _ E1), (expand_hit_range _ E1).
    rewrite interval_pass_copy_app by not_in_word.
    f_equal. apply (IH (length (skipn (length tok_range) (c :: s)))); [|reflexivity].
    subst n. apply (token_tail_shorter _ _ _ _ Hs). discriminate.
  - destruct (startswith tok_interval (c :: s)) eqn:E2.
    + pose proof (startswith_split _ _ E2) as Hs.
      rewrite (expand_hit_interval _ E1 E2).
      remember (skipn (length tok_interval) (c :: s)) as r eqn:Er. clear Er.
      assert (Hr : length r < n)
        by (subst n; apply (token_tail_shorter _ _ _ _ Hs); discriminate).
      rewrite (range_pass_miss _ _ E1).
      change (c :: s = dollar :: (tail_interval ++ r)) in Hs.
      assert (Hc : c = dollar) by congruence.
      assert (Hs' : s = tail_interval ++ r) by congruence.
      clear Hs. subst c s.
      rewrite range_pass_copy_app by not_in_word.
      change (dollar :: tail_interval ++ replace tok_range lit_24h r)
        with (tok_interval ++ replace tok_range lit_24h r).
      rewrite (interval_pass_hit _ (startswith_app _ _)).
      rewrite skipn_app_exact. f_equal.
      now apply (IH (length r)).
    + rewrite (range_pass_miss _ _ E1).
      rewrite interval_pass_miss.
      * rewrite (expand_miss _ _ E1 E2). f_equal.
        apply (IH (length s)); [subst n; simpl; lia|reflexivity].
      * change (startswith (dollar :: tail_interval) (c :: s) = false) in E2.
        change (startswith (dollar :: tail_interval)
                  (c :: replace tok_range lit_24h s) = false).
        cbn [startswith] in E2 |- *.
        rewrite range_pass_keeps_prefix by not_in_word. exact E2.
Qed.

Lemma match_both_literal_head (q : str) :
  ~ In 50%N q -> ~ In 53%N q ->
  forall (s old new : str) (n0 : char) (nt : list char),
    match_both s = Some (old, new) -> new = n0 :: nt -> ~ In n0 q.
Proof.
  intros H2 H5 s old new n0 nt H ->. unfold match_both in H.
  destruct (startswith tok_range s).
  - injection H as _ <- _. exact H2.
  - destruct (startswith tok_interval s); [|discriminate].
    injection H as _ <- _. exact H5.
Qed.

Lemma expand_no_range (s : str) :
  contains tok_range (expand_placeholders s) = false.
Proof.
  apply (scanner_no_occurrence match_both expand_placeholders eq_refl
           expand_both_hit expand_both_miss match_both_sound tail_range).
  - not_in_word.
  - apply match_both_literal_head; not_in_word.
  - intros c s0. unfold match_both.
    change (dollar :: tail_range) with tok_range.
    destruct (startswith tok_range (c :: s0)); [discriminate|reflexivity].
Qed.

Lemma expand_no_interval (s : str) :
  contains tok_interval (expand_placeholders s) = false.
Proof.
  apply (scanner_no_occurrence match_both expand_placeholders eq_refl
           expand_both_hit expand_both_miss match_both_sound tail_interval).
  - not_in_word.
  - apply match_both_literal_head; not_in_word.
  - intros c s0. unfold match_both.
    change (dollar :: tail_interval) with tok_interval.
    destruct (startswith tok_range (c :: s0)); [discriminate|].
    destruct (startswith tok_interval (c :: s0)); [discriminate|reflexivity].
Qed.

Lemma contains_nil_token (p : str) : p <> [] -> contains p [] = false.
Proof. destruct p; [congruence|reflexivity]. Qed.

Lemma tokens_exclusive (s : str) :
  startswith tok_range s = true -> startswith tok_interval s = false.
Proof.
  intros H. apply startswith_split in H. rewrite H. reflexivity.
Qed.

Lemma expand_has_24h (s : str) :
  contains tok_range s = true ->
  contains lit_24h (expand_placeholders s) = true.
Proof.
  remember (length s) as n eqn:Hn. revert s Hn.
  induction n as [n IH] using lt_wf_ind; intros s Hn H.
  destruct s as [|c s]; [discriminate|].
  destruct (startswith tok_range (c :: s)) eqn:E1.
  - rewrite (expand_hit_range _ E1).
    apply contains_of_startswith, startswith_app.
  - rewrite contains_cons, E1 in H. cbn [orb] in H.
    destruct (startswith tok_interval (c :: s)) eqn:E2.
    + pose proof (startswith_split _ _ E2) as Hs.
      rewrite (expand_hit_interval _ E1 E2).
      remember (skipn (length tok_interval) (c :: s)) as r eqn:Er. clear Er.
      apply contains_app_r. apply (IH (length r)); [|reflexivity|].
      * subst n. apply (token_tail_shorter _ _ _ _ Hs). discriminate.
      * change (c :: s = dollar :: (tail_interval ++ r)) in Hs.
        assert (Hs' : s = tail_interval ++ r) by congruence.
        rewrite Hs' in H.
        change (contains (dollar :: tail_range) (tail_interval ++ r) = true) in H.
        rewrite contains_past_plain in H by not_in_word. exact H.
    + rewrite (expand_miss _ _ E1 E2), contains_cons.
      rewrite (IH (length s)); [apply orb_true_r|subst n; simpl; lia|reflexivity|exact H].
Qed.

Lemma expand_has_5m (s : str) :
  contains tok_interval s = true ->
  contains lit_5m (expand_placeholders s) = true.
Proof.
  remember (length s) as n eqn:Hn. revert s Hn.
  induction n as [n IH] using lt_wf_ind; intros s Hn H.
  destruct s as [|c s]; [discriminate|].
  destruct (startswith tok_range (c :: s)) eqn:E1.
  - pose proof (startswith_split _ _ E1) as Hs.
    rewrite (expand_hit_range _ E1).
    remember (skipn (length tok_range) (c :: s)) as r eqn:Er. clear Er.
    apply contains_app_r. apply (IH (length r)); [|reflexivity|].
    + subst n. apply (token_tail_shorter _ _ _ _ Hs). discriminate.
    + rewrite contains_cons, (tokens_exclusive _ E1) in H. cbn [orb] in H.
      change (c :: s = dollar :: (tail_range ++ r)) in Hs.
      assert (Hs' : s = tail_range ++ r) by congruence.
      rewrite Hs' in H.
      change (contains (dollar :: tail_interval) (tail_range ++ r) = true) in H.
      rewrite contains_past_plain in H by not_in_word. exact H.
  - destruct (startswith tok_interval (c :: s)) eqn:E2.
    + rewrite (expand_hit_interval _ E1 E2).
      apply contains_of_startswith, startswith_app.
    + rewrite contains_cons, E2 in H. cbn [orb] in H.
      rewrite (expand_miss _ _ E1 E2), contains_cons.
      rewrite (IH (length s)); [apply orb_true_r|subst n; simpl; lia|reflexivity|exact H].
Qed.

Lemma occurrences_cons (p : str) (c : char) (s : str) :
  occurrences p (c :: s)
  = (if startswith p (c :: s) then 1 else 0) + occurrences p s.
Proof. reflexivity. Qed.

Lemma occurrences_past_plain (tl p x : str) :
  ~ In dollar p ->
  occurrences (dollar :: tl) (p ++ x) = occurrences (dollar :: tl) x.
Proof.
  induction p as [|a p IH]; intros Hp; [reflexivity|].
  simpl app. rewrite occurrences_cons, IH.
  - cbn [startswith].
    replace (dollar =? a)%N with false; [reflexivity|].
    symmetry. apply N.eqb_neq. intros <-. apply Hp. now left.
  - intros Hin. apply Hp. now right.
Qed.

(** Every position at which a placeholder starts is consumed: the output is
    shorter by 5 characters for each [$__range] and by 9 for each
    [$__interval]. *)
Lemma expand_length (s : str) :
  length (expand_placeholders s)
  + 5 * occurrences tok_range s + 9 * occurrences tok_interval s
  = length s.
Proof.
  remember (length s) as n eqn:Hn. revert s Hn.
  induction n as [n IH] using lt_wf_ind; intros s Hn.
  destruct s as [|c s]; [subst; reflexivity|].
  destruct (startswith tok_range (c :: s)) eqn:E1.
  - pose proof (startswith_split _ _ E1) as Hs.
    rewrite (expand_hit_range _ E1).
    rewrite !occurrences_cons, E1, (tokens_exclusive _ E1).
    remember (skipn (length tok_range) (c :: s)) as r eqn:Er. clear Er.
    assert (Hr : length r < n)
      by (subst n; apply (token_tail_shorter _ _ _ _ Hs); discriminate).
    change (c :: s = dollar :: (tail_range ++ r)) in Hs.
    assert (Hs' : s = tail_range ++ r) by congruence.
    rewrite Hs'.
    change (occurrences tok_range (tail_range ++ r))
      with (occurrences (dollar :: tail_range) (tail_range ++ r)).
    change (occurrences tok_interval (tail_range ++ r))
      with (occurrences (dollar :: tail_interval) (tail_range ++ r)).
    rewrite !occurrences_past_plain by not_in_word.
    pose proof (IH (length r) Hr r eq_refl) as IHr.
    change (dollar :: tail_range) with tok_range.
    change (dollar :: tail_interval) with tok_interval.
    rewrite length_app. subst n s. cbn [length] in *.
    rewrite length_app. cbn [length tail_range lit_24h]. lia.
  - destruct (startswith tok_interval (c :: s)) eqn:E2.
    + pose proof (startswith_split _ _ E2) as Hs.
      rewrite (expand_hit_interval _ E1 E2).
      rewrite !occurrences_cons, E1, E2.
      remember (skipn (length tok_interval) (c :: s)) as r eqn:Er. clear Er.
      assert (Hr : length r < n)
        by (subst n; apply (token_tail_shorter _ _ _ _ Hs); discriminate).
      change (c :: s = dollar :: (tail_interval ++ r)) in Hs.
      assert (Hs' : s = tail_interval ++ r) by congruence.
      rewrite Hs'.
      change (occurrences tok_range (tail_interval ++ r))
        with (occurrences (dollar :: tail_range) (tail_interval ++ r)).
      change (occurrences tok_interval (tail_interval ++ r))
        with (occurrences (dollar :: tail_interval) (tail_interval ++ r)).
      rewrite !occurrences_past_plain by not_in_word.
      pose proof (IH (length r) Hr r eq_refl) as IHr.
      change (dollar :: tail_range) with tok_range.
      change (dollar :: tail_interval) with tok_interval.
      rewrite length_app. subst n s. cbn [length] in *.
      rewrite length_app. cbn [length tail_interval lit_5m]. lia.
    + rewrite (expand_miss _ _ E1 E2).
      rewrite !occurrences_cons, E1, E2.
      assert (Hl : length s < n) by (subst n; simpl; lia).
      pose proof (IH (length s) Hl s eq_refl) as IHs.
      subst n. cbn [length] in *. lia.
Qed.

(* ================================================================== *)
(** ** Templating tokens in an extracted query *)
(* ================================================================== *)

Lemma contains_nonempty (p s : str) : p <> [] -> contains p s = true -> s <> [].
Proof. intros Hp H ->. now rewrite contains_nil_token in H. Qed.

Lemma dict_get_of_lookup (d : list (str * json)) (k : str) (v default : json) :
  dict_lookup k d = Some v -> dict_get d k default = v.
Proof. unfold dict_get. now intros ->. Qed.

Lemma dict_has_of_lookup (d : list (str * json)) (k : str) (v : json) :
  dict_lookup k d = Some v -> dict_has d k = true.
Proof. unfold dict_has. now intros ->. Qed.

(** C4. For every target expression that contains both [$__range] and
    [$__interval] (in a target that is not hidden), the extracted query is
    the input with every occurrence of [$__range] exchanged for [24h] and
    every occurrence of [$__interval] for [5m]: it is the one-pass
    expansion, it is shorter by 5 for each [$__range] and by 9 for each
    [$__interval], neither placeholder occurs in it any more, and both
    literals do. *)
Theorem substitution_is_exact
    (panel_title : json) (acc : list QueryItem) (t : list (str * json)) (expr : str) :
  dict_lookup k_expr t = Some (JStr expr) ->
  truthy (dict_get t k_hide JNull) = false ->
  contains tok_range expr = true ->
  contains tok_interval expr = true ->
  extract_target panel_title acc (JObj t)
  = Returned (acc ++ [{| title := panel_title;
                         query := substitute_grafana_vars expr |}])
  /\ substitute_grafana_vars expr = expand_placeholders expr
  /\ length (substitute_grafana_vars expr)
     + 5 * occurrences tok_range expr + 9 * occurrences tok_interval expr
     = length expr
  /\ contains tok_range (substitute_grafana_vars expr) = false
  /\ contains tok_interval (substitute_grafana_vars expr) = false
  /\ contains lit_24h (substitute_grafana_vars expr) = true
  /\ contains lit_5m (substitute_grafana_vars expr) = true.
Proof.
  intros Hexpr Hhide Hr Hi.
  split.
  - unfold extract_target, target_selected.
    rewrite Hhide, (dict_has_of_lookup _ _ _ Hexpr), (dict_get_of_lookup _ _ _ JNull Hexpr).
    assert (Hne : expr <> []) by (apply (contains_nonempty tok_range); [discriminate|exact Hr]).
    destruct expr as [|c e]; [congruence|]. reflexivity.
  - rewrite substitute_is_expand.
    repeat split.
    + apply expand_length.
    + apply expand_no_range.
    + apply expand_no_interval.
    + now apply expand_has_24h.
    + now apply expand_has_5m.
Qed.

Lemma substitution_is_exact_witness :
  let t := [(k_expr, JStr (lit "rate(tx[$__range])/$__interval"))] in
  extract_target (JStr (lit "Net")) [] (JObj t)
  = Returned [{| title := JStr (lit "Net"); query := lit "rate(tx[24h])/5m" |}].
Proof.
  intros t.
  destruct (substitution_is_exact (JStr (lit "Net")) [] t
              (lit "rate(tx[$__range])/$__interval")) as [H _];
    [reflexivity|reflexivity|reflexivity|reflexivity|].
  exact H.
Defined.

(* ================================================================== *)
(** ** The extractor on a dashboard *)
(* ================================================================== *)

Lemma dict_lookup_get (d : list (str * json)) (k : str) (default : json) :
  dict_has d k = true -> dict_lookup k d = Some (dict_get d k default).
Proof. unfold dict_has, dict_get. destruct (dict_lookup k d); [reflexivity|discriminate]. Qed.

Lemma truthy_str (s : str) : truthy (JStr s) = true -> exists c e, s = c :: e.
Proof. destruct s as [|c e]; [discriminate|]. intros _. now exists c, e. Qed.

Lemma extract_target_spec (panel_title : json) (acc : list QueryItem) (target : json) :
  target_shaped target = true ->
  extract_target panel_title acc target
  = Returned (acc ++ spec_target_items panel_title target).
Proof.
  destruct target as [| | | | |items|t]; try discriminate.
  unfold target_shaped, extract_target, spec_target_items.
  destruct (target_selected t) eqn:Hsel.
  - unfold target_selected in Hsel.
    apply andb_true_iff in Hsel as [Hsel Htruthy].
    apply andb_true_iff in Hsel as [Hhide Hhas].
    rewrite (dict_lookup_get _ _ JNull Hhas).
    destruct (dict_get t k_expr JNull) as [| | | |q| |]; try discriminate.
    intros _. destruct (truthy_str _ Htruthy) as (c & e & ->).
    apply negb_true_iff in Hhide. rewrite Hhide.
    now rewrite substitute_is_expand.
  - intros _. rewrite <- (app_nil_r acc) at 1. f_equal. f_equal.
    unfold target_selected in Hsel.
    destruct (dict_lookup k_expr t) as [v|] eqn:Hv; [|reflexivity].
    destruct v as [| | | |[|c e]| |]; try reflexivity.
    rewrite (dict_has_of_lookup _ _ _ Hv), (dict_get_of_lookup _ _ _ JNull Hv) in Hsel.
    cbn [truthy] in Hsel. rewrite andb_true_r, andb_true_r in Hsel.
    apply negb_false_iff in Hsel. now rewrite Hsel.
Qed.







(* ================================================================== *)
(** ** Which panels are taken *)
(* ================================================================== *)




(* ================================================================== *)
(** ** Failures of the extractor *)
(* ================================================================== *)

Lemma for_each_raises {A S : Type} (P : exn_class -> Prop)
    (body : S -> A -> py_result S) :
  (forall acc x e, body acc x = Raised e -> P e) ->
  forall l acc e, for_each body acc l = Raised e -> P e.
Proof.
  intros Hbody l. induction l as [|x rest IH]; intros acc e; cbn [for_each].
  - discriminate.
  - destruct (body acc x) as [acc'|e'] eqn:E; cbn [bind].
    + apply IH.
    + intros [= <-]. exact (Hbody _ _ _ E).
Qed.

Lemma extract_target_raises panel_title acc target e :
  extract_target panel_title acc target = Raised e -> shape_error e.
Proof.
  unfold extract_target, shape_error.
  destruct target as [| | | | | |t]; try (intros [= <-]; now left).
  destruct (target_selected t); [|discriminate].
  destruct (dict_get t k_expr JNull); try discriminate; intros [= <-]; now left.
Qed.

Lemma py_iter_raises v e : py_iter v = Raised e -> shape_error e.
Proof. destruct v; try discriminate; intros [= <-]; now right. Qed.

Lemma extract_panel_raises acc panel e :
  extract_panel acc panel = Raised e -> shape_error e.
Proof.
  unfold extract_panel.
  destruct panel as [| | | | | |p]; try (intros [= <-]; now left).
  destruct (panel_selected p); [|discriminate].
  destruct (py_iter (dict_get p k_targets JNull)) as [targets|e'] eqn:E; cbn [bind].
  - apply for_each_raises. intros acc0 x e0. apply extract_target_raises.
  - intros [= <-]. exact (py_iter_raises _ _ E).
Qed.

Lemma extract_queries_raises body e :
  extract_queries body = Raised e -> shape_error e.
Proof.
  unfold extract_queries.
  destruct body as [| | | | | |top]; try (intros [= <-]; now left).
  destruct (dict_get top k_dashboard (JObj [])) as [| | | | | |dash];
    try (intros [= <-]; now left).
  destruct (py_iter (dict_get dash k_panels (JArr []))) as [panels|e'] eqn:E; cbn [bind].
  - apply for_each_raises. intros acc0 x e0. apply extract_panel_raises.
  - intros [= <-]. exact (py_iter_raises _ _ E).
Qed.

Lemma env_truthy_false (v : option str) :
  v = None \/ v = Some [] -> env_truthy v = false.
Proof. now intros [-> | ->]. Qed.

Lemma forallb_false_of_member {A : Type} (f : A -> bool) (l : list A) (x : A) :
  In x l -> f x = false -> forallb f l = false.
Proof.
  intros Hin Hx. destruct (forallb f l) eqn:E; [|reflexivity].
  rewrite forallb_forall in E. rewrite (E _ Hin) in Hx. discriminate.
Qed.

(** C8. If one of the four dashboard configuration values (endpoint,
    credential, public hostname, dashboard id) is unset or empty, the
    extractor returns the empty sequence and issues no HTTP request. *)
Theorem missing_configuration_issues_no_request
    (cfg : Config) (http_get : http_request -> http_outcome)
    (dashboard_uid : option str) (v : option str) :
  In v [GRAFANA_URL cfg; GRAFANA_API_KEY cfg; GRAFANA_PUBLIC_DOMAIN cfg; dashboard_uid] ->
  v = None \/ v = Some [] ->
  get_all_queries_from_grafana cfg http_get dashboard_uid = (Returned [], []).
Proof.
  intros Hin Hv. unfold get_all_queries_from_grafana.
  now rewrite (forallb_false_of_member env_truthy _ v Hin (env_truthy_false _ Hv)).
Qed.

Lemma missing_configuration_issues_no_request_witness :
  get_all_queries_from_grafana Examples.cfg_no_api_key
    (Examples.serve Examples.mixed_dashboard) (DASHBOARD_UID Examples.cfg)
  = (Returned [], [])
  /\ get_all_queries_from_grafana Examples.cfg
       (Examples.serve Examples.mixed_dashboard) (Some [])
     = (Returned [], []).
Proof.
  split.
  - apply (missing_configuration_issues_no_request Examples.cfg_no_api_key _ _ None).
    + right; left; reflexivity.
    + left; reflexivity.
  - apply (missing_configuration_issues_no_request Examples.cfg _ _ (Some [])).
    + right; right; right; left; reflexivity.
    + right; reflexivity.
Defined.

(* ================================================================== *)
(** ** Every extracted query is non-empty *)
(* ================================================================== *)

Lemma for_each_invariant {A S : Type} (P : S -> Prop) (body : S -> A -> py_result S) :
  (forall acc x acc', P acc -> body acc x = Returned acc' -> P acc') ->
  forall l acc acc', P acc -> for_each body acc l = Returned acc' -> P acc'.
Proof.
  intros Hbody l. induction l as [|x rest IH]; intros acc acc' Hacc; cbn [for_each].
  - now intros [= <-].
  - destruct (body acc x) as [acc1|e] eqn:E; cbn [bind]; [|discriminate].
    apply IH. exact (Hbody _ _ _ Hacc E).
Qed.

Lemma expand_nonempty (c : char) (s : str) : expand_placeholders (c :: s) <> [].
Proof.
  destruct (startswith tok_range (c :: s)) eqn:E1.
  - rewrite (expand_hit_range _ E1). discriminate.
  - destruct (startswith tok_interval (c :: s)) eqn:E2.
    + rewrite (expand_hit_interval _ E1 E2). discriminate.
    + rewrite (expand_miss _ _ E1 E2). discriminate.
Qed.

Lemma extract_target_nonempty panel_title acc target acc' :
  queries_nonempty acc ->
  extract_target panel_title acc target = Returned acc' ->
  queries_nonempty acc'.
Proof.
  unfold extract_target.
  destruct target as [| | | | | |t]; try discriminate.
  destruct (target_selected t) eqn:Hsel; [|now intros H [= <-]].
  unfold target_selected in Hsel. apply andb_true_iff in Hsel as [_ Htruthy].
  destruct (dict_get t k_expr JNull) as [| | | |q| |]; try discriminate.
  destruct (truthy_str _ Htruthy) as (c & e & ->).
  intros Hacc [= <-]. apply Forall_app. split; [exact Hacc|].
  constructor; [|constructor]. cbn [query].
  rewrite substitute_is_expand. apply expand_nonempty.
Qed.

Lemma extract_panel_nonempty acc panel acc' :
  queries_nonempty acc ->
  extract_panel acc panel = Returned acc' ->
  queries_nonempty acc'.
Proof.
  unfold extract_panel.
  destruct panel as [| | | | | |p]; try discriminate.
  destruct (panel_selected p); [|now intros H [= <-]].
  destruct (py_iter (dict_get p k_targets JNull)) as [targets|e]; cbn [bind];
    [|discriminate].
  intros Hacc. apply for_each_invariant; [|exact Hacc].
  intros acc0 x acc1. apply extract_target_nonempty.
Qed.

Lemma extract_queries_nonempty body items :
  extract_queries body = Returned items -> queries_nonempty items.
Proof.
  unfold extract_queries.
  destruct body as [| | | | | |top]; try discriminate.
  destruct (dict_get top k_dashboard (JObj [])) as [| | | | | |dash]; try discriminate.
  destruct (py_iter (dict_get dash k_panels (JArr []))) as [panels|e]; cbn [bind];
    [|discriminate].
  apply for_each_invariant; [|constructor].
  intros acc0 x acc1. apply extract_panel_nonempty.
Qed.

(** C9. Every item of a sequence that [get_all_queries_from_grafana]
    returns has a non-empty query string; a target whose [expr] field is
    missing or empty adds no item. *)
Theorem extracted_queries_are_nonempty
    (cfg : Config) (http_get : http_request -> http_outcome)
    (dashboard_uid : option str) (items : list QueryItem) :
  fst (get_all_queries_from_grafana cfg http_get dashboard_uid) = Returned items ->
  Forall (fun item => query item <> []) items
  /\ forall panel_title acc t,
      dict_lookup k_expr t = None \/ dict_lookup k_expr t = Some (JStr []) ->
      extract_target panel_title acc (JObj t) = Returned acc.
Proof.
  intros H. split.
  - revert H. unfold get_all_queries_from_grafana.
    destruct (forallb env_truthy _); cbn [negb fst].
    2:{ intros [= <-]. constructor. }
    destruct (http_get (grafana_request cfg dashboard_uid))
      as [status_code text body_json|]; cbn [except_request_or_value].
    2:{ intros [= <-]. constructor. }
    destruct (status_code =? 200)%Z; cbn [negb except_request_or_value].
    2:{ intros [= <-]. constructor. }
    destruct body_json as [body|]; cbn [except_request_or_value].
    2:{ intros [= <-]. constructor. }
    destruct (extract_queries body) as [items'|e] eqn:Hwalk.
    + cbn [except_request_or_value]. intros [= <-].
      exact (extract_queries_nonempty _ _ Hwalk).
    + pose proof (extract_queries_raises _ _ Hwalk) as [-> | ->]; discriminate.
  - intros panel_title acc t Hexpr. unfold extract_target, target_selected, dict_has, dict_get.
    destruct Hexpr as [-> | ->]; cbn [truthy]; now rewrite ?andb_false_r.
Qed.

Lemma extracted_queries_are_nonempty_witness :
  Forall (fun item => query item <> [])
    [ {| title := JStr (lit "Net"); query := lit "rate(rx[5m])" |};
      {| title := JStr (lit "Net"); query := lit "rate(tx[24h])/5m" |};
      Examples.cpu_item ].
Proof.
  apply (extracted_queries_are_nonempty Examples.cfg
           (Examples.serve Examples.mixed_dashboard) (DASHBOARD_UID Examples.cfg)).
  reflexivity.
Defined.

(* ================================================================== *)
(** ** The collector *)
(* ================================================================== *)

Lemma append_series_app (rt : PyRuntime) (a b : str) (l : list json) :
  append_series rt (a ++ b) l
  = (a ++ fst (append_series rt b l), snd (append_series rt b l)).
Proof.
  revert b. induction l as [|metric rest IH]; intros b; cbn [append_series].
  - reflexivity.
  - destruct (series_line rt metric) as [line|e].
    + rewrite <- app_assoc. apply IH.
    + reflexivity.
Qed.

Lemma collect_query_app (rt : PyRuntime) (outcome : prom_outcome) (report_data : str)
    (item : QueryItem) :
  collect_query rt outcome report_data item
  = report_data ++ query_section rt item outcome.
Proof.
  unfold query_section, collect_query. cbn [app].
  destruct outcome as [metrics|e].
  - destruct (truthy metrics); cbn [negb].
    + destruct (py_iter metrics) as [series|e].
      * rewrite append_series_app.
        destruct (append_series rt (section_head rt item) series) as [r [e|]];
          cbn [fst snd]; now rewrite app_assoc.
      * now rewrite app_assoc.
    + now rewrite app_assoc.
  - now rewrite app_assoc.
Qed.

Lemma collect_from_sections (rt : PyRuntime) (custom_query : nat -> str -> prom_outcome)
    (all_queries : list QueryItem) :
  forall n report_data,
    collect_from rt custom_query n report_data all_queries
    = report_data ++ concat (sections rt custom_query n all_queries).
Proof.
  induction all_queries as [|item rest IH]; intros n report_data;
    cbn [collect_from sections concat].
  - now rewrite app_nil_r.
  - now rewrite IH, collect_query_app, app_assoc.
Qed.


Lemma sections_nth rt custom_query all_queries :
  forall n i item,
    nth_error all_queries i = Some item ->
    nth_error (sections rt custom_query n all_queries) i
    = Some (query_section rt item (custom_query (n + i) (query item))).
Proof.
  induction all_queries as [|first rest IH]; intros n i item.
  - now destruct i.
  - destruct i as [|i]; cbn [nth_error sections].
    + intros [= ->]. now rewrite Nat.add_0_r.
    + intros H. rewrite (IH (S n) i item H). now rewrite Nat.add_succ_r.
Qed.

Lemma get_metrics_report rt cfg http_get custom_query items :
  fst (get_all_queries_from_grafana cfg http_get (DASHBOARD_UID cfg)) = Returned items ->
  items <> [] ->
  fst (get_metrics rt cfg http_get custom_query)
  = Returned (Some (report_header cfg ++ concat (sections rt custom_query 0 items))).
Proof.
  unfold get_metrics.
  destruct (get_all_queries_from_grafana cfg http_get (DASHBOARD_UID cfg)) as [r log].
  cbn [fst]. intros -> Hne.
  destruct items as [|item rest]; [congruence|].
  cbn [fst]. now rewrite collect_from_sections.
Qed.


Lemma series_line_good rt labels timestamp sample value :
  py_float rt sample = Returned value ->
  series_line rt (prom_series labels timestamp sample)
  = Returned (sample_line rt labels value).
Proof.
  intros H. unfold series_line, prom_series.
  change (dict_get [(k_metric, JObj labels); (k_value, JArr [timestamp; sample])]
            k_metric (JObj [])) with (JObj labels).
  change (dict_lookup k_value
            [(k_metric, JObj labels); (k_value, JArr [timestamp; sample])])
    with (Some (JArr [timestamp; sample])).
  cbn [bind py_item_1 nth_error]. now rewrite H.
Qed.

Lemma series_line_bad rt labels timestamp sample e :
  py_float rt sample = Raised e ->
  series_line rt (prom_series labels timestamp sample) = Raised e.
Proof.
  intros H. unfold series_line, prom_series.
  change (dict_get [(k_metric, JObj labels); (k_value, JArr [timestamp; sample])]
            k_metric (JObj [])) with (JObj labels).
  change (dict_lookup k_value
            [(k_metric, JObj labels); (k_value, JArr [timestamp; sample])])
    with (Some (JArr [timestamp; sample])).
  cbn [bind py_item_1 nth_error]. now rewrite H.
Qed.

Lemma section_of_good_then_bad rt item labels1 labels2 t1 t2 sample1 sample2 value1 e :
  py_float rt sample1 = Returned value1 ->
  py_float rt sample2 = Raised e ->
  e = ValueError \/ e = TypeError ->
  query_section rt item
    (PromResult (JArr [prom_series labels1 t1 sample1; prom_series labels2 t2 sample2]))
  = section_head rt item ++ sample_line rt labels1 value1 ++ unknown_error_marker.
Proof.
  intros Hgood Hbad He. unfold query_section, collect_query.
  cbn [truthy negb py_iter append_series app].
  rewrite (series_line_good _ _ _ _ _ Hgood), (series_line_bad _ _ _ _ _ Hbad).
  rewrite <- app_assoc. do 2 f_equal.
  now destruct He as [-> | ->].
Qed.

(** C10. The handling of a query is not atomic.  There is a backend result
    (a series whose sample is the float [value], then a series whose sample
    is [null], which [float] rejects) for which the section of the query in
    the output is the title line, then the formatted line of the first
    series, then the "unknown error" marker.  More generally, this is the
    section whenever the backend returns two series and [float] accepts the
    sample of the first and rejects the sample of the second ([ValueError]
    or [TypeError]): the line appended before the exception is kept. *)
Theorem lines_before_a_failure_are_kept
    (rt : PyRuntime) (cfg : Config) (http_get : http_request -> http_outcome)
    (custom_query : nat -> str -> prom_outcome) (items : list QueryItem)
    (i : nat) (item : QueryItem) :
  fst (get_all_queries_from_grafana cfg http_get (DASHBOARD_UID cfg)) = Returned items ->
  nth_error items i = Some item ->
  fst (get_metrics rt cfg http_get custom_query)
  = Returned (Some (report_header cfg ++ concat (sections rt custom_query 0 items)))
  /\ (forall value timestamp,
      custom_query i (query item)
      = PromResult (JArr [prom_series [] timestamp (JFloat value);
                          prom_series [] timestamp JNull]) ->
      nth_error (sections rt custom_query 0 items) i
      = Some (section_head rt item ++ sample_line rt [] value ++ unknown_error_marker))
  /\ (forall labels1 labels2 t1 t2 sample1 sample2 value1 e,
      custom_query i (query item)
      = PromResult (JArr [prom_series labels1 t1 sample1;
                          prom_series labels2 t2 sample2]) ->
      py_float rt sample1 = Returned value1 ->
      py_float rt sample2 = Raised e ->
      e = ValueError \/ e = TypeError ->
      nth_error (sections rt custom_query 0 items) i
      = Some (section_head rt item ++ sample_line rt labels1 value1
              ++ unknown_error_marker)).
Proof.
  intros Hitems Hi. split; [|split].
  - apply get_metrics_report; [exact Hitems|].
    intros ->. now destruct i.
  - intros value timestamp Hq.
    rewrite (sections_nth rt custom_query items 0 i item Hi). cbn [Nat.add].
    rewrite Hq. f_equal.
    apply section_of_good_then_bad with (e := TypeError); [reflexivity|reflexivity|].
    now right.
  - intros labels1 labels2 t1 t2 sample1 sample2 value1 e Hq Hgood Hbad He.
    rewrite (sections_nth rt custom_query items 0 i item Hi). cbn [Nat.add].
    rewrite Hq. f_equal.
    now apply section_of_good_then_bad with (e := e).
Qed.

Lemma lines_before_a_failure_are_kept_witness :
  fst (get_metrics Examples.runtime Examples.cfg
         (Examples.serve (Examples.dashboard_of [Examples.cpu_panel Examples.null_datasource]))
         Examples.half_good_backend)
  = Returned
      (Some (report_header Examples.cfg
             ++ lit "### CPU" ++ nl
             ++ lit "- `Total`: **1.50**" ++ nl
             ++ unknown_error_marker))
  /\ nth_error (sections Examples.runtime Examples.half_good_backend 0
                 [Examples.cpu_item]) 0
     = Some (lit "### CPU" ++ nl ++ lit "- `Total`: **1.50**" ++ nl
             ++ unknown_error_marker).
Proof.
  destruct (lines_before_a_failure_are_kept Examples.runtime Examples.cfg
              (Examples.serve (Examples.dashboard_of [Examples.cpu_panel Examples.null_datasource]))
              Examples.half_good_backend [Examples.cpu_item] 0 Examples.cpu_item)
    as (Hreport & _ & Hsection); [reflexivity|reflexivity|].
  split.
  - rewrite Hreport. reflexivity.
  - rewrite (Hsection [] [] (JInt 1700000000) (JInt 1700000000)
               (JStr (lit "1.5")) (JStr (lit "abc")) Examples.one_and_a_half ValueError
               eq_refl eq_refl eq_refl (or_introl eq_refl)).
    reflexivity.
Defined.

(* ================================================================== *)
(** ** The narrative generator *)
(* ================================================================== *)


(* ================================================================== *)
(** ** The notifier *)
(* ================================================================== *)

Lemma ceil_div_step (d step : nat) :
  0 < step -> 0 < d ->
  (d + (step - 1)) / step = S ((d - step + (step - 1)) / step).
Proof.
  intros Hstep Hd. destruct (le_lt_dec step d) as [Hle|Hlt].
  - replace (d + (step - 1)) with ((d - step + (step - 1)) + 1 * step) by lia.
    rewrite Nat.div_add by lia. lia.
  - replace (d - step) with 0 by lia. cbn [Nat.add].
    rewrite (Nat.div_small (step - 1) step) by lia.
    symmetry. apply (Nat.div_unique _ _ _ (d - 1)); lia.
Qed.

Lemma py_range_from_length (step stop : nat) :
  0 < step ->
  forall fuel start,
    stop - start <= fuel ->
    length (py_range_from fuel start stop step) = (stop - start + (step - 1)) / step.
Proof.
  intros Hstep. induction fuel as [|fuel IH]; intros start Hfuel; cbn [py_range_from].
  - replace (stop - start) with 0 by lia. cbn [Nat.add length].
    symmetry. apply Nat.div_small. lia.
  - destruct (start <? stop) eqn:Hlt.
    + apply Nat.ltb_lt in Hlt. cbn [length].
      rewrite IH by lia.
      rewrite (ceil_div_step (stop - start) step) by lia.
      do 2 f_equal. lia.
    + apply Nat.ltb_ge in Hlt.
      replace (stop - start) with 0 by lia. cbn [Nat.add length].
      symmetry. apply Nat.div_small. lia.
Qed.

Lemma py_slice_step (s : str) (i step : nat) :
  py_slice s i (i + step) = firstn step (skipn i s).
Proof. unfold py_slice. f_equal. lia. Qed.

Lemma slices_concat (s : str) (step : nat) :
  0 < step ->
  forall fuel start,
    length s - start <= fuel ->
    concat (map (fun i => py_slice s i (i + step))
              (py_range_from fuel start (length s) step))
    = skipn start s.
Proof.
  intros Hstep. induction fuel as [|fuel IH]; intros start Hfuel; cbn [py_range_from].
  - cbn [map concat]. symmetry. apply skipn_all2. lia.
  - destruct (start <? length s) eqn:Hlt.
    + cbn [map concat]. rewrite IH by lia.
      rewrite py_slice_step.
      replace (start + step) with (step + start) by lia.
      rewrite <- skipn_skipn. apply firstn_skipn.
    + apply Nat.ltb_ge in Hlt. cbn [map concat].
      symmetry. now apply skipn_all2.
Qed.

Lemma chunks_concat (s : str) : concat (chunks s) = s.
Proof.
  unfold chunks, py_range. rewrite slices_concat; [reflexivity|lia|lia].
Qed.

Lemma chunks_length (s : str) : length (chunks s) = (length s + 1989) / 1990.
Proof.
  unfold chunks, py_range. rewrite length_map, py_range_from_length by lia.
  f_equal. lia.
Qed.



Lemma post_chunk_returns (outcome : http_outcome) : post_chunk outcome = Returned tt.
Proof.
  unfold post_chunk, raise_for_status.
  destruct outcome as [status_code text body|]; [|reflexivity].
  now destruct ((400 <=? status_code)%Z && (status_code <? 600)%Z).
Qed.

Lemma send_chunks_log cfg http_post (l : list str) :
  forall n, send_chunks cfg http_post n l = (Returned tt, map (discord_request cfg) l).
Proof.
  induction l as [|chunk rest IH]; intros n; cbn [send_chunks map].
  - reflexivity.
  - now rewrite post_chunk_returns, IH.
Qed.

Lemma posted_chunks_of_requests cfg (l : list str) :
  posted_chunks (map (discord_request cfg) l) = l.
Proof.
  unfold posted_chunks. induction l as [|chunk rest IH]; cbn [map flat_map].
  - reflexivity.
  - cbn [discord_request req_json map snd app]. now rewrite IH.
Qed.

(* ================================================================== *)
(** ** More on the substitution of line 89 *)
(* ================================================================== *)

Lemma replace_absent (o : char) (old new s : str) :
  contains (o :: old) s = false -> replace (o :: old) new s = s.
Proof.
  induction s as [|c s IH]; intros H; [reflexivity|].
  rewrite contains_cons in H. apply orb_false_iff in H as [Hhead Hrest].
  rewrite (replace_miss _ _ _ _ _ Hhead). f_equal. now apply IH.
Qed.

Lemma substitute_plain (s : str) :
  contains tok_range s = false ->
  contains tok_interval s = false ->
  substitute_grafana_vars s = s.
Proof.
  intros Hr Hi. unfold substitute_grafana_vars.
  replace (replace tok_range lit_24h s) with s
    by (symmetry; exact (replace_absent dollar tail_range lit_24h s Hr)).
  exact (replace_absent dollar tail_interval lit_5m s Hi).
Qed.

(** X1. An expression in which neither placeholder occurs is extracted
    unchanged; so substituting twice is the same as substituting once. *)
Theorem substitution_keeps_plain_queries (s : str) :
  (contains tok_range s = false ->
   contains tok_interval s = false ->
   substitute_grafana_vars s = s)
  /\ substitute_grafana_vars (substitute_grafana_vars s) = substitute_grafana_vars s.
Proof.
  split; [apply substitute_plain|].
  apply substitute_plain; rewrite substitute_is_expand.
  - apply expand_no_range.
  - apply expand_no_interval.
Qed.

Lemma substitution_keeps_plain_queries_witness :
  substitute_grafana_vars (lit "sum(rate(node_cpu_seconds_total[5m]))")
  = lit "sum(rate(node_cpu_seconds_total[5m]))".
Proof.
  apply (substitution_keeps_plain_queries
           (lit "sum(rate(node_cpu_seconds_total[5m]))")); reflexivity.
Defined.

Lemma interval_pass_keeps_prefix (q s : str) :
  ~ In dollar q -> ~ In 53%N q ->
  startswith q (replace tok_interval lit_5m s) = startswith q s.
Proof.
  intros Hq H5.
  apply (scanner_keeps_prefix (match_one tok_interval lit_5m)); trivial.
  - exact (replace_one_hit dollar tail_interval lit_5m).
  - exact (replace_one_miss dollar tail_interval lit_5m).
  - exact match_interval_sound.
  - intros s0 old new n0 nt H ->. unfold match_one in H.
    destruct (startswith tok_interval s0); [|discriminate].
    injection H as _ <- _. exact H5.
Qed.

Lemma tokens_exclusive_r (s : str) :
  startswith tok_interval s = true -> startswith tok_range s = false.
Proof.
  intros H. apply startswith_split in H. rewrite H. reflexivity.
Qed.

Lemma interval_first_is_expand (s : str) :
  substitute_interval_first s = expand_placeholders s.
Proof.
  unfold substitute_interval_first.
  remember (length s) as n eqn:Hn. revert s Hn.
  induction n as [n IH] using lt_wf_ind; intros s Hn.
  destruct s as [|c s]; [reflexivity|].
  destruct (startswith tok_range (c :: s)) eqn:E1.
  - pose proof (startswith_split _ _ E1) as Hs.
    pose proof (tokens_exclusive _ E1) as E2.
    rewrite (expand_hit_range _ E1).
    remember (skipn (length tok_range) (c :: s)) as r eqn:Er. clear Er.
    assert (Hr : length r < n)
      by (subst n; apply (token_tail_shorter _ _ _ _ Hs); discriminate).
    rewrite (interval_pass_miss _ _ E2).
    change (c :: s = dollar :: (tail_range ++ r)) in Hs.
    assert (Hc : c = dollar) by congruence.
    assert (Hs' : s = tail_range ++ r) by congruence.
    clear Hs. subst c s.
    rewrite interval_pass_copy_app by not_in_word.
    change (dollar :: tail_range ++ replace tok_interval lit_5m r)
      with (tok_range ++ replace tok_interval lit_5m r).
    rewrite (range_pass_hit _ (startswith_app _ _)).
    rewrite skipn_app_exact. f_equal.
    now apply (IH (length r)).
  - destruct (startswith tok_interval (c :: s)) eqn:E2.
    + pose proof (startswith_split _ _ E2) as Hs.
      rewrite (interval_pass_hit _ E2), (expand_hit_interval _ E1 E2).
      rewrite range_pass_copy_app by not_in_word.
      f_equal. apply (IH (length (skipn (length tok_interval) (c :: s)))); [|reflexivity].
      subst n. apply (token_tail_shorter _ _ _ _ Hs). discriminate.
    + rewrite (interval_pass_miss _ _ E2).
      rewrite range_pass_miss.
      * rewrite (expand_miss _ _ E1 E2). f_equal.
        apply (IH (length s)); [subst n; simpl; lia|reflexivity].
      * change (startswith (dollar :: tail_range) (c :: s) = false) in E1.
        change (startswith (dollar :: tail_range)
                  (c :: replace tok_interval lit_5m s) = false).
        cbn [startswith] in E1 |- *.
        rewrite interval_pass_keeps_prefix by not_in_word. exact E1.
Qed.

(** X2. The order of the two [replace] calls of line 89 does not matter:
    replacing [$__interval] first and [$__range] second gives the same
    query for every expression. *)
Theorem substitution_order_is_immaterial (s : str) :
  substitute_interval_first s = substitute_grafana_vars s.
Proof. now rewrite interval_first_is_expand, substitute_is_expand. Qed.

(* ================================================================== *)
(** ** What the extractor returns on any body *)
(* ================================================================== *)

Lemma extract_target_returns panel_title acc target acc' :
  extract_target panel_title acc target = Returned acc' ->
  acc' = acc ++ spec_target_items panel_title target.
Proof.
  intros H.
  assert (Hshape : target_shaped target = true).
  { revert H. unfold extract_target, target_shaped.
    destruct target as [| | | | | |t]; try discriminate.
    destruct (target_selected t); [|reflexivity].
    destruct (dict_get t k_expr JNull); try discriminate. reflexivity. }
  rewrite (extract_target_spec _ _ _ Hshape) in H. congruence.
Qed.

Lemma for_each_targets_returns panel_title targets :
  forall acc acc',
    for_each (extract_target panel_title) acc targets = Returned acc' ->
    acc' = acc ++ flat_map (spec_target_items panel_title) targets.
Proof.
  induction targets as [|target rest IH]; intros acc acc'; cbn [for_each flat_map].
  - intros [= <-]. now rewrite app_nil_r.
  - destruct (extract_target panel_title acc target) as [acc1|e] eqn:E; cbn [bind];
      [|discriminate].
    intros H. apply IH in H. apply extract_target_returns in E. subst.
    now rewrite app_assoc.
Qed.

Lemma for_each_strings_raise {S : Type} (body : S -> json -> py_result S)
    (strings : list str) :
  (forall acc s, exists e, body acc (JStr s) = Raised e) ->
  forall acc acc',
    for_each body acc (map JStr strings) = Returned acc' -> strings = [].
Proof.
  intros Hbody acc acc'. destruct strings as [|s rest]; [reflexivity|].
  cbn [map for_each]. destruct (Hbody acc s) as [e ->]. discriminate.
Qed.

Lemma spec_panel_items_unselected (p : list (str * json)) :
  panel_selected p = false -> spec_panel_items (JObj p) = [].
Proof.
  unfold panel_selected, spec_panel_items. intros Hsel.
  destruct (dict_lookup k_targets p) as [v|] eqn:Hv; [|reflexivity].
  rewrite (dict_has_of_lookup _ _ _ Hv) in Hsel. cbn [andb] in Hsel.
  rewrite Hsel. now destruct v.
Qed.

Lemma extract_panel_returns acc panel acc' :
  extract_panel acc panel = Returned acc' ->
  acc' = acc ++ spec_panel_items panel.
Proof.
  unfold extract_panel.
  destruct panel as [| | | | | |p]; try discriminate.
  destruct (panel_selected p) eqn:Hsel.
  2:{ intros [= <-]. now rewrite (spec_panel_items_unselected _ Hsel), app_nil_r. }
  unfold panel_selected in Hsel. apply andb_true_iff in Hsel as [Hhas Hprom].
  unfold spec_panel_items. rewrite (dict_lookup_get _ _ JNull Hhas), Hprom.
  destruct (dict_get p k_targets JNull) as [| | | |s|targets|d];
    cbn [py_iter bind]; try discriminate.
  - rewrite <- (map_map (fun c => [c]) JStr). intros H.
    pose proof H as H'.
    apply for_each_strings_raise in H'; [|intros acc0 s0; now eexists].
    apply map_eq_nil in H'. subst s. cbn in H. injection H as <-.
    now rewrite app_nil_r.
  - apply for_each_targets_returns.
  - rewrite <- (map_map fst JStr). intros H.
    pose proof H as H'.
    apply for_each_strings_raise in H'; [|intros acc0 s0; now eexists].
    apply map_eq_nil in H'. subst d. cbn in H. injection H as <-.
    now rewrite app_nil_r.
Qed.

Lemma for_each_panels_returns panels :
  forall acc acc',
    for_each extract_panel acc panels = Returned acc' ->
    acc' = acc ++ spec_extraction panels.
Proof.
  unfold spec_extraction.
  induction panels as [|panel rest IH]; intros acc acc'; cbn [for_each flat_map].
  - intros [= <-]. now rewrite app_nil_r.
  - destruct (extract_panel acc panel) as [acc1|e] eqn:E; cbn [bind]; [|discriminate].
    intros H. apply IH in H. apply extract_panel_returns in E. subst.
    now rewrite app_assoc.
Qed.

Lemma extract_queries_returns body items :
  extract_queries body = Returned items ->
  items = spec_extraction (body_panels body).
Proof.
  unfold extract_queries, body_panels, dashboard_panels.
  destruct body as [| | | | | |top]; try discriminate.
  destruct (dict_get top k_dashboard (JObj [])) as [| | | | | |dash]; try discriminate.
  destruct (dict_get dash k_panels (JArr [])) as [| | | |s|panels|d];
    cbn [py_iter bind]; try discriminate.
  - rewrite <- (map_map (fun c => [c]) JStr). intros H.
    pose proof H as H'.
    apply for_each_strings_raise in H'; [|intros acc0 s0; now eexists].
    apply map_eq_nil in H'. subst s. cbn in H. now injection H as <-.
  - intros H. now apply for_each_panels_returns in H.
  - rewrite <- (map_map fst JStr). intros H.
    pose proof H as H'.
    apply for_each_strings_raise in H'; [|intros acc0 s0; now eexists].
    apply map_eq_nil in H'. subst d. cbn in H. now injection H as <-.
Qed.


(* ================================================================== *)
(** ** More on the collector *)
(* ================================================================== *)


Lemma sample_series_line rt (r : Sample) :
  sample_accepted rt r ->
  series_line rt (sample_series r) = Returned (sample_line rt (s_labels r) (s_value r)).
Proof. intros H. now apply series_line_good. Qed.

Lemma append_series_accepted rt (rows : list Sample) :
  Forall (sample_accepted rt) rows ->
  forall report_data tail,
    append_series rt report_data (map sample_series rows ++ tail)
    = append_series rt
        (report_data ++ concat (map (fun r => sample_line rt (s_labels r) (s_value r)) rows))
        tail.
Proof.
  induction 1 as [|r rows Hr _ IH]; intros report_data tail; cbn [map app concat].
  - now rewrite app_nil_r.
  - cbn [append_series]. rewrite (sample_series_line _ _ Hr).
    rewrite IH. now rewrite <- app_assoc.
Qed.

(** X5. When the backend returns one or more well-formed series and
    [float] accepts every sample, the turn of the loop appends the title
    line, then one formatted line per series in the order returned, then an
    empty line. *)
Theorem accepted_series_are_listed_in_order
    (rt : PyRuntime) (item : QueryItem) (report_data : str) (rows : list Sample) :
  rows <> [] ->
  Forall (sample_accepted rt) rows ->
  collect_query rt (PromResult (JArr (map sample_series rows))) report_data item
  = report_data ++ section_head rt item
    ++ concat (map (fun r => sample_line rt (s_labels r) (s_value r)) rows)
    ++ nl.
Proof.
  intros Hne Hrows. unfold collect_query.
  destruct rows as [|r rows]; [congruence|].
  cbn [map truthy negb py_iter].
  change (JObj ?x :: ?l) with (JObj x :: l).
  rewrite <- (app_nil_r (sample_series r :: map sample_series rows)).
  change (sample_series r :: map sample_series rows)
    with (map sample_series (r :: rows)).
  rewrite (append_series_accepted rt _ Hrows). cbn [append_series].
  now rewrite <- !app_assoc.
Qed.

Lemma accepted_series_are_listed_in_order_witness :
  collect_query Examples.runtime
    (PromResult (JArr [prom_series [(k_name, JStr (lit "up")); (lit "job", JStr (lit "node"))]
                         (JInt 1700000000) (JStr (lit "1.5"));
                       prom_series [] (JInt 1700000000) (JStr (lit "1.5"))]))
    [] Examples.cpu_item
  = lit "### CPU" ++ nl
    ++ lit "- `job=" ++ [dquote] ++ lit "node" ++ [dquote] ++ lit "`: **1.50**" ++ nl
    ++ lit "- `Total`: **1.50**" ++ nl
    ++ nl.
Proof.
  assert (Hne : Examples.two_samples <> []) by discriminate.
  assert (Hrows : Forall (sample_accepted Examples.runtime) Examples.two_samples)
    by (repeat constructor).
  exact (accepted_series_are_listed_in_order Examples.runtime Examples.cpu_item []
           Examples.two_samples Hne Hrows).
Defined.

Lemma section_cut_at_failure
    (rt : PyRuntime) (item : QueryItem) (report_data : str)
    (rows : list Sample) (bad : json) (rest : list json) (e : exn_class) :
  Forall (sample_accepted rt) rows ->
  series_line rt bad = Raised e ->
  e <> PrometheusApiClientException ->
  collect_query rt (PromResult (JArr (map sample_series rows ++ bad :: rest)))
    report_data item
  = report_data ++ section_head rt item
    ++ concat (map (fun r => sample_line rt (s_labels r) (s_value r)) rows)
    ++ unknown_error_marker.
Proof.
  intros Hrows Hbad He. unfold collect_query.
  assert (Htruthy : truthy (JArr (map sample_series rows ++ bad :: rest)) = true)
    by (destruct rows; reflexivity).
  rewrite Htruthy. cbn [negb py_iter].
  rewrite (append_series_accepted rt _ Hrows). cbn [append_series].
  rewrite Hbad. rewrite <- !app_assoc. do 3 f_equal.
  now destruct e.
Qed.

(** X6. The first series that cannot be rendered ends the section: the
    lines of the series before it are kept, the "unknown error" marker
    follows, and the series after it are not rendered at all. *)
Theorem first_unreadable_series_ends_the_section
    (rt : PyRuntime) (item : QueryItem) (report_data : str)
    (rows : list Sample) (bad : json) (rest : list json) (e : exn_class) :
  Forall (sample_accepted rt) rows ->
  series_line rt bad = Raised e ->
  e <> PrometheusApiClientException ->
  collect_query rt (PromResult (JArr (map sample_series rows ++ bad :: rest)))
    report_data item
  = report_data ++ section_head rt item
    ++ concat (map (fun r => sample_line rt (s_labels r) (s_value r)) rows)
    ++ unknown_error_marker.
Proof. apply section_cut_at_failure. Qed.

Lemma first_unreadable_series_ends_the_section_witness :
  collect_query Examples.runtime
    (PromResult (JArr [prom_series [] (JInt 1700000000) (JStr (lit "1.5"));
                       JObj [(k_metric, JObj [])];
                       prom_series [] (JInt 1700000000) (JStr (lit "1.5"))]))
    [] Examples.cpu_item
  = lit "### CPU" ++ nl ++ lit "- `Total`: **1.50**" ++ nl ++ unknown_error_marker.
Proof.
  assert (Hrows : Forall (sample_accepted Examples.runtime) [Examples.total_sample])
    by (repeat constructor).
  assert (He : KeyError <> PrometheusApiClientException) by discriminate.
  exact (first_unreadable_series_ends_the_section Examples.runtime Examples.cpu_item []
           [Examples.total_sample] (JObj [(k_metric, JObj [])])
           [prom_series [] (JInt 1700000000) (JStr (lit "1.5"))] KeyError
           Hrows eq_refl He).
Defined.

Lemma series_line_malformed rt metric :
  malformed_series metric = true ->
  exists e, series_line rt metric = Raised e /\ e <> PrometheusApiClientException.
Proof.
  unfold malformed_series, series_line.
  destruct metric as [| | | | | |m];
    try (intros _; exists AttributeError; split; [reflexivity|discriminate]).
  destruct (dict_get m k_metric (JObj [])) as [| | | | | |labels];
    try (intros _; exists AttributeError; split; [reflexivity|discriminate]).
  destruct (dict_lookup k_value m) as [v|]; cbn [bind].
  2:{ intros _. exists KeyError. split; [reflexivity|discriminate]. }
  destruct v as [| | | |s|items|d]; cbn [py_item_1 bind];
    try (intros _; exists TypeError; split; [reflexivity|discriminate]).
  - intros H. apply Nat.ltb_lt in H. exists IndexError.
    destruct s as [|c0 [|c1 s]]; cbn [length] in H; try lia;
      (split; [reflexivity|discriminate]).
  - intros H. apply Nat.ltb_lt in H. exists IndexError.
    destruct items as [|x0 [|x1 items]]; cbn [length] in H; try lia;
      (split; [reflexivity|discriminate]).
  - intros _. exists KeyError. split; [reflexivity|discriminate].
Qed.

(** X7. A series that is not an object, whose labels are not an object,
    that has no [value], or whose [value] has no second item, is never
    raised to the caller of the collector: whatever [float] does, the
    section of a result that starts with such a series is the title line and
    the "unknown error" marker. *)
Theorem malformed_series_gives_the_unknown_error_marker
    (rt : PyRuntime) (item : QueryItem) (report_data : str)
    (metric : json) (rest : list json) :
  malformed_series metric = true ->
  collect_query rt (PromResult (JArr (metric :: rest))) report_data item
  = report_data ++ section_head rt item ++ unknown_error_marker.
Proof.
  intros H. destruct (series_line_malformed rt _ H) as (e & Hline & He).
  exact (section_cut_at_failure rt item report_data [] metric rest e
           (Forall_nil _) Hline He).
Qed.

Lemma malformed_series_gives_the_unknown_error_marker_witness :
  collect_query Examples.runtime
    (PromResult (JArr [JObj [(k_metric, JObj []); (k_value, JArr [JInt 1700000000])]]))
    [] Examples.cpu_item
  = lit "### CPU" ++ nl ++ unknown_error_marker.
Proof.
  exact (malformed_series_gives_the_unknown_error_marker Examples.runtime
           Examples.cpu_item []
           (JObj [(k_metric, JObj []); (k_value, JArr [JInt 1700000000])]) []
           eq_refl).
Defined.

(* ---- labels ---- *)

Lemma eqb_eq (a b : str) : eqb a b = true <-> a = b.
Proof.
  revert b. induction a as [|x a IH]; intros [|y b]; cbn [eqb];
    try (split; [discriminate|discriminate]); [now split|].
  rewrite andb_true_iff, N.eqb_eq, IH. split.
  - now intros [-> ->].
  - now intros [= -> ->].
Qed.

Lemma py_join_nonempty (sep : str) (l : list str) :
  l <> [] -> Forall (fun x => x <> []) l -> py_join sep l <> [].
Proof.
  destruct l as [|x rest]; [congruence|]. intros _ H.
  apply Forall_inv in H. destruct rest; cbn [py_join]; [exact H|].
  destruct x; [congruence|discriminate].
Qed.

Lemma label_string_drops_name rt l1 name l2 :
  label_string rt (l1 ++ (k_name, name) :: l2) = label_string rt (l1 ++ l2).
Proof.
  unfold label_string. rewrite !filter_app. cbn [filter fst].
  now rewrite (proj2 (eqb_eq k_name k_name) eq_refl).
Qed.

(** X8. The internal name label never shows in a line: a series renders
    the same with or without its [__name__] label.  The word [Total] stands
    for the labels exactly when no other label is left: it is used when
    every label is [__name__] (or there is none), and it is not used as
    soon as one other label is present. *)
Theorem name_label_is_dropped_and_total_is_the_fallback
    (rt : PyRuntime) (value : spec_float) :
  (forall l1 name l2,
      sample_line rt (l1 ++ (k_name, name) :: l2) value
      = sample_line rt (l1 ++ l2) value)
  /\ (forall labels,
      Forall (fun kv => fst kv = k_name) labels ->
      sample_line rt labels value
      = s_bullet ++ s_Total ++ s_colon ++ format_2f rt value ++ s_stars ++ nl)
  /\ (forall labels k v,
      In (k, v) labels -> k <> k_name ->
      label_string rt labels <> []
      /\ sample_line rt labels value
         = s_bullet ++ label_string rt labels ++ s_colon ++ format_2f rt value
           ++ s_stars ++ nl).
Proof.
  split; [|split].
  - intros l1 name l2. unfold sample_line. now rewrite label_string_drops_name.
  - intros labels Hall. unfold sample_line, label_string.
    replace (filter (fun kv => negb (eqb (fst kv) k_name)) labels) with (@nil (str * json)).
    + reflexivity.
    + symmetry. induction Hall as [|kv rest Hkv _ IH]; [reflexivity|].
      cbn [filter]. rewrite (proj2 (eqb_eq _ _) Hkv). exact IH.
  - intros labels k v Hin Hk.
    assert (Hne : label_string rt labels <> []).
    { unfold label_string. apply py_join_nonempty.
      - intros Hnil. apply map_eq_nil in Hnil.
        assert (Hf : In (k, v) (filter (fun kv => negb (eqb (fst kv) k_name)) labels)).
        { apply filter_In. split; [exact Hin|]. cbn [fst].
          apply negb_true_iff. destruct (eqb k k_name) eqn:E; [|reflexivity].
          apply eqb_eq in E. contradiction. }
        rewrite Hnil in Hf. exact Hf.
      - apply Forall_map, Forall_forall. intros kv _.
        destruct (fst kv); discriminate. }
    split; [exact Hne|].
    unfold sample_line. destruct (label_string rt labels); [congruence|reflexivity].
Qed.

Lemma name_label_is_dropped_and_total_is_the_fallback_witness :
  sample_line Examples.runtime [(k_name, JStr (lit "up"))] Examples.one_and_a_half
  = lit "- `Total`: **1.50**" ++ nl
  /\ label_string Examples.runtime
       [(k_name, JStr (lit "up")); (lit "job", JStr (lit "node"))] <> [].
Proof.
  destruct (name_label_is_dropped_and_total_is_the_fallback Examples.runtime
              Examples.one_and_a_half) as (_ & Htotal & Hother).
  split.
  - apply Htotal. repeat constructor.
  - apply (Hother _ (lit "job") (JStr (lit "node"))).
    + right; left; reflexivity.
    + discriminate.
Defined.

(* ================================================================== *)
(** ** More on the generator *)
(* ================================================================== *)

Lemma contains_middle (a p b : str) : contains p (a ++ p ++ b) = true.
Proof. apply contains_app_r, contains_of_startswith, startswith_app. Qed.

Lemma env_truthy_some (v : option str) :
  env_truthy v = true -> exists c rest, v = Some (c :: rest).
Proof. destruct v as [[|c rest]|]; try discriminate. intros _. now exists c, rest. Qed.


(** X9. The generator sends at most one prompt, and sends one exactly when
    both the credential and the text block are present and non-empty; the
    prompt then holds the text block verbatim between the two fixed parts
    of the template, and the answer of the model is returned as it is. *)
Theorem one_prompt_holding_the_metrics
    (cfg : Config) (generate_content : str -> genai_outcome)
    (metrics_text : option str) :
  length (snd (generate_report_with_gemini cfg generate_content metrics_text)) <= 1
  /\ (snd (generate_report_with_gemini cfg generate_content metrics_text) <> []
      <-> env_truthy (GEMINI_API_KEY cfg) = true /\ env_truthy metrics_text = true)
  /\ (forall prompt,
      In prompt (snd (generate_report_with_gemini cfg generate_content metrics_text)) ->
      exists text,
        metrics_text = Some text
        /\ prompt = prompt_head ++ text ++ prompt_tail
        /\ contains text prompt = true)
  /\ (forall text answer,
      env_truthy (GEMINI_API_KEY cfg) = true ->
      env_truthy metrics_text = true ->
      metrics_text = Some text ->
      generate_content (prompt_head ++ text ++ prompt_tail) = GenText answer ->
      fst (generate_report_with_gemini cfg generate_content metrics_text)
      = Returned answer).
Proof.
  unfold generate_report_with_gemini.
  destruct (env_truthy (GEMINI_API_KEY cfg)) eqn:Hkey; cbn [negb].
  2:{ cbn [snd length]. repeat split; try lia; try congruence;
      try (intros [? ?]; discriminate); try (intros ? []); intros; discriminate. }
  destruct (env_truthy metrics_text) eqn:Htext; cbn [negb].
  2:{ cbn [snd length]. repeat split; try lia; try congruence;
      try (intros [? ?]; discriminate); try (intros ? []); intros; discriminate. }
  destruct (env_truthy_some _ Htext) as (c & rest & ->).
  cbn [snd fst length env_str]. split; [lia|]. split; [|split].
  - split; [now intros _|discriminate].
  - intros prompt [<- | []]. exists (c :: rest).
    repeat split. apply contains_middle.
  - intros text answer _ _ [= <-] Hanswer. now rewrite Hanswer.
Qed.

Lemma one_prompt_holding_the_metrics_witness :
  fst (generate_report_with_gemini Examples.cfg
         (fun _ => GenText (lit "all good")) (Some (lit "### CPU")))
  = Returned (lit "all good")
  /\ contains (lit "### CPU") (prompt_head ++ lit "### CPU" ++ prompt_tail) = true.
Proof.
  destruct (one_prompt_holding_the_metrics Examples.cfg
              (fun _ => GenText (lit "all good")) (Some (lit "### CPU")))
    as (_ & _ & Hprompt & Hanswer).
  split.
  - apply (Hanswer (lit "### CPU")); reflexivity.
  - destruct (Hprompt (prompt_head ++ lit "### CPU" ++ prompt_tail))
      as (text & Htext & _ & Hcontains); [left; reflexivity|].
    injection Htext as <-. exact Hcontains.
Defined.

(* ================================================================== *)
(** ** More on the notifier *)
(* ================================================================== *)

Lemma send_to_discord_log cfg http_post narrative :
  send_to_discord cfg http_post narrative
  = (Returned tt,
     if env_truthy (DISCORD_WEBHOOK_URL cfg)
     then map (discord_request cfg) (chunks narrative)
     else []).
Proof.
  unfold send_to_discord.
  destruct (env_truthy (DISCORD_WEBHOOK_URL cfg)); cbn [negb]; [|reflexivity].
  apply send_chunks_log.
Qed.

Lemma chunks_of_short (s : str) :
  0 < length s <= 1990 -> chunks s = [s].
Proof.
  intros [Hpos Hle]. unfold chunks, py_range.
  rewrite Nat.sub_0_r.
  destruct (length s) as [|n] eqn:Hlen; [lia|].
  cbn [py_range_from]. rewrite <- Hlen.
  replace (0 <? length s) with true by (symmetry; apply Nat.ltb_lt; lia).
  replace (py_range_from n (0 + 1990) (length s) 1990) with (@nil nat).
  - cbn [map]. rewrite py_slice_step. cbn [skipn].
    now rewrite firstn_all2 by lia.
  - destruct n; cbn [py_range_from]; [reflexivity|].
    replace (0 + 1990 <? length s) with false; [reflexivity|].
    symmetry. apply Nat.ltb_ge. lia.
Qed.


Lemma py_range_from_nonempty fuel start stop step :
  py_range_from fuel start stop step <> [] -> start < stop.
Proof.
  destruct fuel; cbn [py_range_from]; [congruence|].
  destruct (start <? stop) eqn:E; [|congruence].
  intros _. now apply Nat.ltb_lt.
Qed.

Lemma slices_shape (s : str) (step : nat) :
  0 < step ->
  forall fuel start,
    let slices := map (fun i => py_slice s i (i + step))
                      (py_range_from fuel start (length s) step) in
    Forall (fun c => 0 < length c <= step) slices
    /\ forall front last,
        slices = front ++ [last] -> Forall (fun c => length c = step) front.
Proof.
  intros Hstep. induction fuel as [|fuel IH]; intros start; cbn [py_range_from].
  - cbn [map]. split; [constructor|].
    intros front last H. now destruct front.
  - destruct (start <? length s) eqn:Hlt.
    2:{ cbn [map]. split; [constructor|]. intros front last H. now destruct front. }
    apply Nat.ltb_lt in Hlt. cbn [map].
    destruct (IH (start + step)) as [IHall IHfront].
    assert (Hlen : length (py_slice s start (start + step))
                   = Nat.min step (length s - start))
      by (rewrite py_slice_step, length_firstn, length_skipn; reflexivity).
    split.
    + constructor; [rewrite Hlen; lia|exact IHall].
    + intros front last H. destruct front as [|f front]; [constructor|].
      cbn [app] in H. injection H as <- Hrest.
      constructor; [|exact (IHfront _ _ Hrest)].
      assert (Hnext : start + step < length s).
      { apply (py_range_from_nonempty fuel _ _ step).
        intros Hnil. rewrite Hnil in Hrest. now destruct front. }
      rewrite Hlen. lia.
Qed.

(** X11. With a webhook configured, no empty message is ever posted: every
    chunk has between 1 and 1990 characters, and every chunk but the last
    has exactly 1990. *)
Theorem every_chunk_but_the_last_is_full
    (cfg : Config) (http_post : nat -> http_request -> http_outcome) (narrative : str) :
  env_truthy (DISCORD_WEBHOOK_URL cfg) = true ->
  Forall (fun chunk => 0 < length chunk <= 1990)
    (posted_chunks (snd (send_to_discord cfg http_post narrative)))
  /\ forall front last,
      posted_chunks (snd (send_to_discord cfg http_post narrative)) = front ++ [last] ->
      Forall (fun chunk => length chunk = 1990) front.
Proof.
  intros Hurl. rewrite send_to_discord_log, Hurl. cbn [snd].
  rewrite posted_chunks_of_requests.
  apply (slices_shape narrative 1990); lia.
Qed.

Lemma every_chunk_but_the_last_is_full_witness :
  Forall (fun chunk => length chunk = 1990)
    [repeat 65%N 1990; repeat 65%N 1990].
Proof.
  destruct (every_chunk_but_the_last_is_full Examples.cfg (fun _ _ => HttpFailure)
              (repeat 65%N 4000) eq_refl) as [_ H].
  apply (H _ (repeat 65%N 20)). reflexivity.
Defined.

(* ================================================================== *)
(** ** The script *)
(* ================================================================== *)


Lemma report_is_truthy cfg (text : str) :
  env_truthy (Some (report_header cfg ++ text)) = true.
Proof. reflexivity. Qed.








(* ================================================================== *)
(** ** The selection of the specification and the walk of the code *)
(* ================================================================== *)

Lemma datasource_qualifies_agrees (p : list (str * json)) :
  is_prometheus_panel (dict_get p k_datasource (JObj [])) = datasource_qualifies p.
Proof.
  unfold datasource_qualifies, dict_get.
  destruct (dict_lookup k_datasource p) as [v|]; [|reflexivity].
  destruct v as [| | | | | |d]; try reflexivity.
  unfold is_prometheus_panel, dict_get.
  now destruct (dict_lookup k_type d) as [[| | | |s| |]|].
Qed.

Lemma target_items_agrees (panel_title target : json) :
  spec_target_items panel_title target = target_items panel_title target.
Proof.
  unfold spec_target_items, target_items, hidden, dict_get.
  destruct target as [| | | | | |t]; try reflexivity.
  destruct (dict_lookup k_expr t) as [[| | | |[|c e]| |]|]; try reflexivity.
  now destruct (dict_lookup k_hide t).
Qed.

Lemma panel_items_agrees (panel : json) :
  spec_panel_items panel = panel_items datasource_qualifies panel.
Proof.
  unfold spec_panel_items, panel_items.
  destruct panel as [| | | | | |p]; try reflexivity.
  destruct (dict_lookup k_targets p) as [[| | | | |targets|]|]; try reflexivity.
  rewrite datasource_qualifies_agrees.
  destruct (datasource_qualifies p); [|reflexivity].
  unfold title_of, dict_get.
  induction targets as [|target rest IH]; [reflexivity|].
  cbn [flat_map]. now rewrite IH, target_items_agrees.
Qed.

Lemma selection_agrees (panels : list json) :
  spec_extraction panels = selection datasource_qualifies panels.
Proof.
  unfold spec_extraction, selection.
  induction panels as [|panel rest IH]; [reflexivity|].
  cbn [flat_map]. now rewrite IH, panel_items_agrees.
Qed.




(* ================================================================== *)
(** ** The extractor with its console output *)
(* ================================================================== *)

Lemma title_of_get (p : list (str * json)) :
  dict_get p k_title (JStr default_title) = title_of p.
Proof. reflexivity. Qed.

Lemma print_found (panel_title : json) :
  Console.print_value Console.msg_found_open panel_title Console.msg_found_close
  = if Console.value_encodable panel_title then Returned tt
    else Raised UnicodeEncodeError.
Proof.
  unfold Console.print_value.
  change (Console.encodable Console.msg_found_open) with true.
  change (Console.encodable Console.msg_found_close) with true.
  now rewrite andb_true_r.
Qed.

(** One target, with the [print] of line 92: as without it when the title
    can be written, and otherwise [UnicodeEncodeError] as soon as a target
    is taken. *)
Lemma console_extract_target (panel_title : json) (acc : list QueryItem) (target : json) :
  Console.extract_target panel_title acc target
  = match extract_target panel_title acc target with
    | Returned acc' =>
        if Console.value_encodable panel_title then Returned acc'
        else if Nat.eqb (length acc') (length acc) then Returned acc'
        else Raised UnicodeEncodeError
    | Raised e => Raised e
    end.
Proof.
  unfold Console.extract_target, extract_target.
  destruct target as [| | | | | |t]; try reflexivity.
  destruct (target_selected t).
  2:{ rewrite Nat.eqb_refl. now destruct (Console.value_encodable panel_title). }
  destruct (dict_get t k_expr JNull); try reflexivity.
  rewrite print_found.
  destruct (Console.value_encodable panel_title); cbn [bind]; [reflexivity|].
  rewrite length_app. cbn [length].
  replace (length acc + 1 =? length acc) with false; [reflexivity|].
  symmetry. apply Nat.eqb_neq. lia.
Qed.

Lemma console_target_returns panel_title acc target acc' :
  Console.extract_target panel_title acc target = Returned acc' ->
  extract_target panel_title acc target = Returned acc'.
Proof.
  rewrite console_extract_target.
  destruct (extract_target panel_title acc target) as [acc1|e]; [|discriminate].
  destruct (Console.value_encodable panel_title); [now intros|].
  destruct (length acc1 =? length acc); [now intros|discriminate].
Qed.


(** Two loop bodies of which the second returns whatever the first
    returns, and raises the same unless the first raises
    [UnicodeEncodeError]. *)
Section Refinement.

Context {A S : Type}.
Variables printing quiet : S -> A -> py_result S.

Hypothesis returns_agree : forall acc x acc',
    printing acc x = Returned acc' -> quiet acc x = Returned acc'.
Hypothesis raises_agree : forall acc x e,
    printing acc x = Raised e ->
    e = UnicodeEncodeError \/ quiet acc x = Raised e.

Lemma for_each_returns_agree (l : list A) :
  forall acc acc',
    for_each printing acc l = Returned acc' -> for_each quiet acc l = Returned acc'.
Proof.
  induction l as [|x rest IH]; intros acc acc'; cbn [for_each]; [trivial|].
  destruct (printing acc x) as [acc1|e] eqn:E; cbn [bind]; [|discriminate].
  rewrite (returns_agree _ _ _ E). cbn [bind]. apply IH.
Qed.


End Refinement.

Lemma console_panel_returns acc panel acc' :
  Console.extract_panel acc panel = Returned acc' ->
  extract_panel acc panel = Returned acc'.
Proof.
  unfold Console.extract_panel, extract_panel.
  destruct panel as [| | | | | |p]; try discriminate.
  destruct (panel_selected p); [|trivial].
  destruct (py_iter (dict_get p k_targets JNull)) as [targets|e]; cbn [bind];
    [|discriminate].
  apply for_each_returns_agree. intros acc0 x acc1. apply console_target_returns.
Qed.


Lemma console_queries_returns body items :
  Console.extract_queries body = Returned items ->
  extract_queries body = Returned items.
Proof.
  unfold Console.extract_queries, extract_queries.
  destruct body as [| | | | | |top]; try discriminate.
  destruct (dict_get top k_dashboard (JObj [])) as [| | | | | |dash]; try discriminate.
  destruct (py_iter (dict_get dash k_panels (JArr []))) as [panels|e]; cbn [bind];
    [|discriminate].
  apply for_each_returns_agree. intros acc0 x acc1. apply console_panel_returns.
Qed.


(** With every title of the panel list writable, the walk with its
    [print] is the walk without. *)
Lemma console_targets_quiet panel_title targets :
  Console.value_encodable panel_title = true ->
  forall acc,
    for_each (Console.extract_target panel_title) acc targets
    = for_each (extract_target panel_title) acc targets.
Proof.
  intros Htitle. induction targets as [|target rest IH]; intros acc; cbn [for_each];
    [reflexivity|].
  rewrite console_extract_target, Htitle.
  destruct (extract_target panel_title acc target); cbn [bind]; [apply IH|reflexivity].
Qed.

Lemma console_panels_quiet panels :
  titles_encodable panels = true ->
  forall acc,
    for_each Console.extract_panel acc panels = for_each extract_panel acc panels.
Proof.
  induction panels as [|panel rest IH]; intros Htitles acc; cbn [for_each];
    [reflexivity|].
  cbn [titles_encodable forallb] in Htitles.
  apply andb_true_iff in Htitles as [Htitle Hrest].
  assert (Hpanel : Console.extract_panel acc panel = extract_panel acc panel).
  { unfold Console.extract_panel, extract_panel.
    destruct panel as [| | | | | |p]; try reflexivity.
    destruct (panel_selected p); [|reflexivity].
    destruct (py_iter (dict_get p k_targets JNull)); cbn [bind]; [|reflexivity].
    apply console_targets_quiet. now rewrite title_of_get. }
  rewrite Hpanel.
  destruct (extract_panel acc panel); cbn [bind]; [now apply IH|reflexivity].
Qed.

Lemma console_queries_quiet body panels :
  dashboard_panels body = Some panels ->
  titles_encodable panels = true ->
  Console.extract_queries body = extract_queries body.
Proof.
  unfold dashboard_panels, Console.extract_queries, extract_queries.
  destruct body as [| | | | | |top]; try discriminate.
  destruct (dict_get top k_dashboard (JObj [])) as [| | | | | |dash]; try discriminate.
  destruct (dict_get dash k_panels (JArr [])) as [| | | | |l|]; try discriminate.
  intros [= ->] Htitles. cbn [py_iter bind].
  now apply console_panels_quiet.
Qed.





(* ================================================================== *)
(** ** Failures of the extractor, with the console *)
(* ================================================================== *)

Lemma encodable_app (a b : str) :
  Console.encodable (a ++ b) = Console.encodable a && Console.encodable b.
Proof. apply forallb_app. Qed.

Lemma print_unfold (text : str) :
  Console.print text
  = if Console.encodable text then Returned tt else Raised UnicodeEncodeError.
Proof. reflexivity. Qed.

Lemma print_prefixed (prefix message : str) :
  Console.encodable prefix = true ->
  Console.print (prefix ++ message)
  = if Console.encodable message then Returned tt else Raised UnicodeEncodeError.
Proof.
  intros Hp. unfold Console.print. now rewrite encodable_app, Hp.
Qed.






(* ================================================================== *)
(** ** The narrative generator, with the console *)
(* ================================================================== *)




(* ================================================================== *)
(** ** What the extractor returns, with the console *)
(* ================================================================== *)

Lemma body_panels_schema (body : json) : body_panels body = schema_panels body.
Proof.
  unfold body_panels, dashboard_panels, schema_panels, dict_get.
  destruct body as [| | | | | |top]; try reflexivity.
  destruct (dict_lookup k_dashboard top) as [[| | | | | |dash]|]; try reflexivity.
  destruct (dict_lookup k_panels dash) as [[| | | | |panels|]|]; reflexivity.
Qed.

(** A sequence that the extractor returns is empty, or is returned by the
    walk over a body served with status 200. *)
Lemma console_get_all_returned cfg http_get dashboard_uid items :
  fst (Console.get_all_queries_from_grafana cfg http_get dashboard_uid) = Returned items ->
  items = []
  \/ exists text body,
      config_complete cfg dashboard_uid = true
      /\ http_get (grafana_request cfg dashboard_uid)
         = Console.Reply 200 text (Console.Parsed body)
      /\ Console.extract_queries body = Returned items.
Proof.
  unfold Console.get_all_queries_from_grafana.
  change (forallb env_truthy
            [GRAFANA_URL cfg; GRAFANA_API_KEY cfg; GRAFANA_PUBLIC_DOMAIN cfg;
             dashboard_uid]) with (config_complete cfg dashboard_uid).
  destruct (config_complete cfg dashboard_uid); cbn [negb].
  2:{ cbn [fst]. intros [= <-]. now left. }
  destruct (Console.print (Console.request_line cfg dashboard_uid)); [|discriminate].
  cbn [fst].
  destruct (http_get (grafana_request cfg dashboard_uid))
    as [status_code text body_json|message].
  2:{ destruct (Console.print _); cbn [bind]; [|discriminate]. intros [= <-]. now left. }
  destruct (status_code =? 200)%Z eqn:Hstatus; cbn [negb].
  2:{ change (Console.print_value Console.msg_status (JInt status_code) [])
        with (@Returned unit tt).
      cbn [bind]. rewrite print_unfold.
      destruct (Console.encodable _); cbn [bind Console.except_value_error];
        intros [= <-]; now left. }
  apply Z.eqb_eq in Hstatus. subst status_code.
  destruct body_json as [body|message].
  2:{ destruct (Console.print _); cbn [bind]; [|discriminate]. intros [= <-]. now left. }
  destruct (Console.extract_queries body) as [walked|e] eqn:Hwalk.
  - cbn [Console.except_value_error]. intros [= <-]. right. now exists text, body.
  - destruct e; cbn [Console.except_value_error]; try discriminate;
      intros [= <-]; now left.
Qed.

(** X3. A sequence that the extractor returns is never a part of the
    selection: it is empty, or it is the whole ordered selection over the
    panel list of a body that was served with status 200. *)
Theorem returned_sequence_is_never_partial
    (cfg : Config) (http_get : http_request -> Console.http_reply)
    (dashboard_uid : option str) (items : list QueryItem) :
  fst (Console.get_all_queries_from_grafana cfg http_get dashboard_uid) = Returned items ->
  items = []
  \/ exists text body,
      http_get (grafana_request cfg dashboard_uid)
      = Console.Reply 200 text (Console.Parsed body)
      /\ items = selection datasource_qualifies (schema_panels body).
Proof.
  intros H.
  destruct (console_get_all_returned _ _ _ _ H)
    as [->|(text & body & _ & Hreply & Hwalk)]; [now left|].
  right. exists text, body. split; [exact Hreply|].
  rewrite <- body_panels_schema, <- selection_agrees.
  apply extract_queries_returns, console_queries_returns, Hwalk.
Qed.

Lemma returned_sequence_is_never_partial_witness :
  ConsoleExamples.three_items
  = selection datasource_qualifies (schema_panels Examples.mixed_dashboard)
  /\ [Examples.cpu_item]
     = selection datasource_qualifies (schema_panels Examples.odd_dashboard).
Proof.
  split.
  - destruct (returned_sequence_is_never_partial Examples.cfg
                (ConsoleExamples.serve Examples.mixed_dashboard)
                (DASHBOARD_UID Examples.cfg) ConsoleExamples.three_items eq_refl)
      as [Hnil|(text & body & Hreply & Hitems)].
    + discriminate Hnil.
    + injection Hreply as _ <-. exact Hitems.
  - destruct (returned_sequence_is_never_partial Examples.cfg
                (ConsoleExamples.serve Examples.odd_dashboard)
                (DASHBOARD_UID Examples.cfg) [Examples.cpu_item] eq_refl)
      as [Hnil|(text & body & Hreply & Hitems)].
    + discriminate Hnil.
    + injection Hreply as _ <-. exact Hitems.
Defined.

(** Every title of a returned sequence was written by line 92. *)
Lemma console_target_written panel_title acc target acc' :
  Forall (fun item => Console.value_encodable (title item) = true) acc ->
  Console.extract_target panel_title acc target = Returned acc' ->
  Forall (fun item => Console.value_encodable (title item) = true) acc'.
Proof.
  intros Hacc. unfold Console.extract_target.
  destruct target as [| | | | | |t]; try discriminate.
  destruct (target_selected t); [|now intros [= <-]].
  destruct (dict_get t k_expr JNull); try discriminate.
  rewrite print_found.
  destruct (Console.value_encodable panel_title) eqn:Htitle; cbn [bind]; [|discriminate].
  intros [= <-]. apply Forall_app. split; [exact Hacc|].
  constructor; [exact Htitle|constructor].
Qed.

Lemma console_panel_written acc panel acc' :
  Forall (fun item => Console.value_encodable (title item) = true) acc ->
  Console.extract_panel acc panel = Returned acc' ->
  Forall (fun item => Console.value_encodable (title item) = true) acc'.
Proof.
  unfold Console.extract_panel.
  destruct panel as [| | | | | |p]; try discriminate.
  destruct (panel_selected p); [|now intros Hacc [= <-]].
  destruct (py_iter (dict_get p k_targets JNull)) as [targets|e]; cbn [bind];
    [|discriminate].
  intros Hacc. apply for_each_invariant; [|exact Hacc].
  intros acc0 x acc1. apply console_target_written.
Qed.

Lemma console_get_all_written cfg http_get dashboard_uid items :
  fst (Console.get_all_queries_from_grafana cfg http_get dashboard_uid) = Returned items ->
  Forall (fun item => Console.value_encodable (title item) = true) items.
Proof.
  intros H.
  destruct (console_get_all_returned _ _ _ _ H)
    as [->|(text & body & _ & _ & Hwalk)]; [constructor|].
  revert Hwalk. unfold Console.extract_queries.
  destruct body as [| | | | | |top]; try discriminate.
  destruct (dict_get top k_dashboard (JObj [])) as [| | | | | |dash]; try discriminate.
  destruct (py_iter (dict_get dash k_panels (JArr []))) as [panels|e]; cbn [bind];
    [|discriminate].
  apply for_each_invariant; [|constructor].
  intros acc0 x acc1. apply console_panel_written.
Qed.

(* ================================================================== *)
(** ** The collector, with the console and the backend log *)
(* ================================================================== *)

Lemma print_running (panel_title : json) :
  Console.print_value Console.msg_running_open panel_title Console.msg_running_close
  = if Console.value_encodable panel_title then Returned tt
    else Raised UnicodeEncodeError.
Proof.
  unfold Console.print_value.
  change (Console.encodable Console.msg_running_open) with true.
  change (Console.encodable Console.msg_running_close) with true.
  now rewrite andb_true_r.
Qed.

Lemma print_failure (e : exn_class) (message : str) :
  Console.print (match e with
                 | PrometheusApiClientException => Console.msg_query_failed
                 | _ => Console.msg_unknown_error
                 end ++ message)
  = if Console.encodable message then Returned tt else Raised UnicodeEncodeError.
Proof. destruct e; now rewrite print_prefixed. Qed.

(** One turn of the loop, when the title was written by line 92 and the
    text of a failure of the backend can be written: the section of the
    quiet run, and one query sent to the backend. *)
Lemma console_collect_query rt custom_query report_data queries item :
  Console.value_encodable (title item) = true ->
  (forall e message,
      custom_query (length queries) (query item) = Console.QueryFailed e message ->
      Console.encodable message = true) ->
  Console.collect_query rt custom_query report_data queries item
  = (Returned
       (collect_query rt
          (Console.forget_prom (custom_query (length queries) (query item)))
          report_data item),
     queries ++ [query item]).
Proof.
  intros Htitle Hfailure. unfold Console.collect_query, collect_query.
  rewrite print_running, Htitle.
  destruct (custom_query (length queries) (query item)) as [metrics|e message];
    cbn [Console.forget_prom].
  - destruct (truthy metrics); cbn [negb]; [|reflexivity].
    destruct (py_iter metrics) as [series|e]; [|reflexivity].
    now destruct (append_series rt _ series) as [r [e|]].
  - rewrite print_failure, (Hfailure _ _ eq_refl). reflexivity.
Qed.

Lemma console_collect_from rt custom_query all_queries :
  Forall (fun item => Console.value_encodable (title item) = true) all_queries ->
  (forall n q e message,
      custom_query n q = Console.QueryFailed e message ->
      Console.encodable message = true) ->
  forall report_data queries,
    Console.collect_from rt custom_query report_data queries all_queries
    = (Returned
         (collect_from rt (fun n q => Console.forget_prom (custom_query n q))
            (length queries) report_data all_queries),
       queries ++ map query all_queries).
Proof.
  intros Htitles Hfailure.
  induction Htitles as [|item rest Htitle _ IH]; intros report_data queries;
    cbn [Console.collect_from collect_from map].
  - now rewrite app_nil_r.
  - rewrite (console_collect_query _ _ _ _ _ Htitle (Hfailure _ _)).
    rewrite IH, length_app, Nat.add_1_r, <- app_assoc. reflexivity.
Qed.

(** The collector with its logs, from the result of the extractor. *)
Lemma console_get_metrics_pair
    (rt : PyRuntime) (cfg : Config) (http_get : http_request -> Console.http_reply)
    (custom_query : nat -> str -> Console.prom_reply) :
  (forall n q e message,
      custom_query n q = Console.QueryFailed e message ->
      Console.encodable message = true) ->
  Console.get_metrics rt cfg http_get custom_query
  = (match fst (Console.get_all_queries_from_grafana cfg http_get (DASHBOARD_UID cfg)) with
     | Raised e => Raised e
     | Returned [] => Returned None
     | Returned (item :: rest) =>
         Returned
           (Some (report_header cfg
                  ++ concat (sections rt
                               (fun n q => Console.forget_prom (custom_query n q))
                               0 (item :: rest))))
     end,
     snd (Console.get_all_queries_from_grafana cfg http_get (DASHBOARD_UID cfg)),
     match fst (Console.get_all_queries_from_grafana cfg http_get (DASHBOARD_UID cfg)) with
     | Raised _ => []
     | Returned items => map query items
     end).
Proof.
  intros Hfailure.
  pose proof (console_get_all_written cfg http_get (DASHBOARD_UID cfg)) as Hwritten.
  unfold Console.get_metrics.
  destruct (Console.get_all_queries_from_grafana cfg http_get (DASHBOARD_UID cfg))
    as [r gets].
  cbn [fst snd] in *.
  destruct r as [[|item rest]|e]; try reflexivity.
  rewrite (console_collect_from rt custom_query _ (Hwritten _ eq_refl) Hfailure).
  cbn [bind app length]. now rewrite collect_from_sections.
Qed.



(* ================================================================== *)
(** ** The notifier, with the console *)
(* ================================================================== *)

Lemma console_post_chunk_raises reply e :
  Console.post_chunk reply = Raised e -> e = UnicodeEncodeError.
Proof.
  destruct reply as [|message]; cbn [Console.post_chunk]; [discriminate|].
  rewrite print_unfold. destruct (Console.encodable _); [discriminate|].
  now intros [= <-].
Qed.

Lemma console_send_chunks cfg http_post (l : list str) :
  (forall n request message,
      http_post n request = Console.PostFailed message ->
      Console.encodable message = true) ->
  forall n,
    Console.send_chunks cfg http_post n l = (Returned tt, map (discord_request cfg) l).
Proof.
  intros Hfailure.
  induction l as [|chunk rest IH]; intros n; cbn [Console.send_chunks map];
    [reflexivity|].
  destruct (http_post n (discord_request cfg chunk)) as [|message] eqn:Hreply;
    cbn [Console.post_chunk].
  - now rewrite IH.
  - rewrite print_prefixed, (Hfailure _ _ _ Hreply) by reflexivity. now rewrite IH.
Qed.

Lemma console_send_chunks_raises cfg http_post (l : list str) :
  forall n e,
    fst (Console.send_chunks cfg http_post n l) = Raised e -> e = UnicodeEncodeError.
Proof.
  induction l as [|chunk rest IH]; intros n e; cbn [Console.send_chunks];
    [discriminate|].
  destruct (Console.post_chunk (http_post n (discord_request cfg chunk)))
    as [u|e1] eqn:Hpost.
  - specialize (IH (S n) e).
    destruct (Console.send_chunks cfg http_post (S n) rest) as [r log].
    exact IH.
  - cbn [fst]. intros [= <-]. exact (console_post_chunk_raises _ _ Hpost).
Qed.

Lemma console_send_raises cfg http_post narrative e :
  fst (Console.send_to_discord cfg http_post narrative) = Raised e ->
  e = UnicodeEncodeError.
Proof.
  unfold Console.send_to_discord.
  destruct (env_truthy (DISCORD_WEBHOOK_URL cfg)); cbn [negb].
  - apply console_send_chunks_raises.
  - cbn [fst]. change (Console.print Console.msg_no_webhook) with (@Returned unit tt).
    cbn [bind]. rewrite print_unfold.
    destruct (Console.encodable narrative); [discriminate|]. now intros [= <-].
Qed.

(** X10. Without a webhook the notifier posts nothing and prints the
    narrative (line 188): it returns when the narrative can be written to
    the console and raises [UnicodeEncodeError] when it cannot.  With a
    webhook, when the text of every failure of a POST can be written, it
    returns after posting ceil(len/1990) chunks that concatenate to the
    narrative: nothing for the empty narrative, and the narrative itself in
    a single POST when it has between 1 and 1990 characters.  In every
    case the only exception that it raises is [UnicodeEncodeError]. *)
Theorem notifier_handles_every_length
    (cfg : Config) (http_post : nat -> http_request -> Console.post_reply)
    (narrative : str) :
  (env_truthy (DISCORD_WEBHOOK_URL cfg) = false ->
   Console.send_to_discord cfg http_post narrative
   = (if Console.encodable narrative then Returned tt else Raised UnicodeEncodeError,
      []))
  /\ (env_truthy (DISCORD_WEBHOOK_URL cfg) = true ->
      (forall n request message,
          http_post n request = Console.PostFailed message ->
          Console.encodable message = true) ->
      fst (Console.send_to_discord cfg http_post narrative) = Returned tt
      /\ length (snd (Console.send_to_discord cfg http_post narrative))
         = (length narrative + 1989) / 1990
      /\ concat (posted_chunks (snd (Console.send_to_discord cfg http_post narrative)))
         = narrative
      /\ (narrative = [] ->
          snd (Console.send_to_discord cfg http_post narrative) = [])
      /\ (0 < length narrative <= 1990 ->
          snd (Console.send_to_discord cfg http_post narrative)
          = [discord_request cfg narrative]))
  /\ (forall e,
      fst (Console.send_to_discord cfg http_post narrative) = Raised e ->
      e = UnicodeEncodeError).
Proof.
  split; [|split].
  - intros Hwebhook. unfold Console.send_to_discord. rewrite Hwebhook. cbn [negb].
    change (Console.print Console.msg_no_webhook) with (@Returned unit tt).
    cbn [bind]. now rewrite print_unfold.
  - intros Hwebhook Hfailure. unfold Console.send_to_discord.
    rewrite Hwebhook. cbn [negb].
    rewrite (console_send_chunks _ _ _ Hfailure). cbn [fst snd].
    rewrite posted_chunks_of_requests, length_map.
    split; [reflexivity|]. split; [apply chunks_length|].
    split; [apply chunks_concat|]. split.
    + now intros ->.
    + intros Hshort. now rewrite (chunks_of_short _ Hshort).
  - intros e. apply console_send_raises.
Qed.

Lemma notifier_handles_every_length_witness :
  Console.send_to_discord Examples.cfg_no_webhook (fun _ _ => Console.Posted)
    ConsoleExamples.lone_surrogate
  = (Raised UnicodeEncodeError, [])
  /\ snd (Console.send_to_discord Examples.cfg
            (fun _ _ => Console.PostFailed (lit "500 Server Error")) notice_no_api_key)
     = [discord_request Examples.cfg notice_no_api_key].
Proof.
  split.
  - exact (proj1 (notifier_handles_every_length Examples.cfg_no_webhook
                    (fun _ _ => Console.Posted) ConsoleExamples.lone_surrogate)
             eq_refl).
  - destruct (proj1 (proj2 (notifier_handles_every_length Examples.cfg
                              (fun _ _ => Console.PostFailed (lit "500 Server Error"))
                              notice_no_api_key)))
      as (_ & _ & _ & _ & Hshort).
    + reflexivity.
    + intros n request message [= <-]. reflexivity.
    + apply Hshort. cbn. lia.
Defined.

(* ================================================================== *)
(** ** The script, with the console *)
(* ================================================================== *)

Lemma console_collect_query_raises rt custom_query report_data queries item e :
  fst (Console.collect_query rt custom_query report_data queries item) = Raised e ->
  e = UnicodeEncodeError.
Proof.
  unfold Console.collect_query.
  destruct (Console.print_value _ _ _); [|discriminate].
  destruct (custom_query (length queries) (query item)) as [metrics|cls message].
  - destruct (truthy metrics); cbn [negb]; [|discriminate].
    destruct (py_iter metrics) as [series|e1]; [|discriminate].
    destruct (append_series rt _ series) as [r [e1|]]; discriminate.
  - cbn [fst]. rewrite print_failure.
    destruct (Console.encodable message); cbn [bind]; [discriminate|].
    now intros [= <-].
Qed.

Lemma console_collect_from_raises rt custom_query (all_queries : list QueryItem) :
  forall report_data queries e,
    fst (Console.collect_from rt custom_query report_data queries all_queries)
    = Raised e ->
    e = UnicodeEncodeError.
Proof.
  induction all_queries as [|item rest IH]; intros report_data queries e;
    cbn [Console.collect_from]; [discriminate|].
  pose proof (console_collect_query_raises rt custom_query report_data queries item)
    as Hturn.
  destruct (Console.collect_query rt custom_query report_data queries item)
    as [[report_data'|e1] queries'].
  - apply IH.
  - cbn [fst] in *. intros [= <-]. now apply Hturn.
Qed.

Lemma console_get_metrics_raises rt cfg http_get custom_query e :
  fst (fst (Console.get_metrics rt cfg http_get custom_query)) = Raised e ->
  fst (Console.get_all_queries_from_grafana cfg http_get (DASHBOARD_UID cfg)) = Raised e
  \/ e = UnicodeEncodeError.
Proof.
  unfold Console.get_metrics.
  destruct (Console.get_all_queries_from_grafana cfg http_get (DASHBOARD_UID cfg))
    as [r gets].
  cbn [fst].
  destruct r as [[|item rest]|e0]; cbn [fst].
  - discriminate.
  - pose proof (console_collect_from_raises rt custom_query (item :: rest)
                  (report_header cfg) [] e) as Hloop.
    destruct (Console.collect_from rt custom_query (report_header cfg) []
                (item :: rest)) as [[report_data|e1] queries]; cbn [fst bind] in *.
    + discriminate.
    + intros [= <-]. right. now apply Hloop.
  - intros [= <-]. now left.
Qed.

Lemma console_generator_raises cfg generate_content metrics_text e :
  fst (Console.generate_report_with_gemini cfg generate_content metrics_text) = Raised e ->
  e = UnicodeEncodeError.
Proof.
  unfold Console.generate_report_with_gemini.
  destruct (env_truthy (GEMINI_API_KEY cfg)); cbn [negb]; [|discriminate].
  destruct (env_truthy metrics_text); cbn [negb fst]; [|discriminate].
  destruct (generate_content _) as [narrative|cls message]; [discriminate|].
  rewrite print_prefixed by reflexivity.
  destruct (Console.encodable message); cbn [bind]; [discriminate|].
  now intros [= <-].
Qed.

(** X12. An exception of the extractor ends the script, with the GETs of
    the extractor as its only requests; and an exception that ends the
    script is an exception of the extractor or the [UnicodeEncodeError] of
    a [print]. *)
Theorem the_script_fails_in_the_extraction_or_at_the_console
    (rt : PyRuntime) (cfg : Config) (http_get : http_request -> Console.http_reply)
    (custom_query : nat -> str -> Console.prom_reply)
    (generate_content : str -> genai_outcome)
    (http_post : nat -> http_request -> Console.post_reply) :
  (forall e,
      fst (Console.get_all_queries_from_grafana cfg http_get (DASHBOARD_UID cfg))
      = Raised e ->
      Console.main rt cfg http_get custom_query generate_content http_post
      = (Raised e,
         {| Console.log_gets :=
              snd (Console.get_all_queries_from_grafana cfg http_get
                     (DASHBOARD_UID cfg));
            Console.log_queries := [];
            Console.log_prompts := [];
            Console.log_posts := [] |}))
  /\ (forall e,
      fst (Console.main rt cfg http_get custom_query generate_content http_post)
      = Raised e ->
      fst (Console.get_all_queries_from_grafana cfg http_get (DASHBOARD_UID cfg))
      = Raised e
      \/ e = UnicodeEncodeError).
Proof.
  split.
  - intros e. unfold Console.main, Console.get_metrics.
    change Console.opening with (@Returned unit tt).
    destruct (Console.get_all_queries_from_grafana cfg http_get (DASHBOARD_UID cfg))
      as [r gets].
    cbn [fst snd]. now intros ->.
  - intros e.
    pose proof (console_get_metrics_raises rt cfg http_get custom_query) as Hmetrics.
    unfold Console.main.
    change Console.opening with (@Returned unit tt).
    destruct (Console.get_metrics rt cfg http_get custom_query)
      as [[[metrics_data|e0] gets] queries]; cbn [fst] in *.
    2:{ intros [= <-]. now apply Hmetrics. }
    destruct (env_truthy metrics_data).
    2:{ discriminate. }
    change (Console.print (nl ++ Console.msg_collected)) with (@Returned unit tt).
    pose proof (console_generator_raises cfg generate_content metrics_data) as Hgen.
    destruct (Console.generate_report_with_gemini cfg generate_content metrics_data)
      as [[gemini_report|e1] prompts]; cbn [fst] in *.
    2:{ intros [= <-]. right. now apply Hgen. }
    change (Console.print (nl ++ Console.msg_generated)) with (@Returned unit tt).
    pose proof (console_send_raises cfg http_post gemini_report) as Hsend.
    destruct (Console.send_to_discord cfg http_post gemini_report)
      as [[u|e2] posts]; cbn [fst] in *.
    + discriminate.
    + intros [= <-]. right. now apply Hsend.
Qed.

Lemma the_script_fails_in_the_extraction_or_at_the_console_witness :
  fst (Console.main Examples.runtime Examples.cfg (ConsoleExamples.serve (JArr []))
         ConsoleExamples.failing_backend (fun _ => GenText (lit "ok"))
         (fun _ _ => Console.Posted))
  = Raised AttributeError
  /\ fst (Console.main Examples.runtime Examples.cfg_no_webhook
            (ConsoleExamples.serve Examples.mixed_dashboard)
            ConsoleExamples.failing_backend
            (fun _ => GenText ConsoleExamples.lone_surrogate)
            (fun _ _ => Console.Posted))
     = Raised UnicodeEncodeError.
Proof.
  split; [|reflexivity].
  rewrite (proj1 (the_script_fails_in_the_extraction_or_at_the_console
                    Examples.runtime Examples.cfg (ConsoleExamples.serve (JArr []))
                    ConsoleExamples.failing_backend (fun _ => GenText (lit "ok"))
                    (fun _ _ => Console.Posted))
             AttributeError eq_refl).
  reflexivity.
Defined.

(** The script on a non-empty extraction. *)
Lemma console_main_with_queries
    (rt : PyRuntime) (cfg : Config) (http_get : http_request -> Console.http_reply)
    (custom_query : nat -> str -> Console.prom_reply)
    (generate_content : str -> genai_outcome)
    (http_post : nat -> http_request -> Console.post_reply)
    (items : list QueryItem) (narrative : str) :
  fst (Console.get_all_queries_from_grafana cfg http_get (DASHBOARD_UID cfg))
  = Returned items ->
  items <> [] ->
  (forall n q e message,
      custom_query n q = Console.QueryFailed e message ->
      Console.encodable message = true) ->
  fst (Console.generate_report_with_gemini cfg generate_content
         (Some (report_header cfg
                ++ concat (sections rt
                             (fun n q => Console.forget_prom (custom_query n q))
                             0 items))))
  = Returned narrative ->
  env_truthy (DISCORD_WEBHOOK_URL cfg) = true ->
  (forall n request message,
      http_post n request = Console.PostFailed message ->
      Console.encodable message = true) ->
  Console.main rt cfg http_get custom_query generate_content http_post
  = (Returned tt,
     {| Console.log_gets :=
          snd (Console.get_all_queries_from_grafana cfg http_get (DASHBOARD_UID cfg));
        Console.log_queries := map query items;
        Console.log_prompts :=
          snd (Console.generate_report_with_gemini cfg generate_content
                 (Some (report_header cfg
                        ++ concat (sections rt
                                     (fun n q => Console.forget_prom (custom_query n q))
                                     0 items))));
        Console.log_posts := map (discord_request cfg) (chunks narrative) |})
  /\ concat (posted_chunks (map (discord_request cfg) (chunks narrative))) = narrative.
Proof.
  intros Hitems Hne Hbackend Hnarrative Hwebhook Hposts.
  split; [|rewrite posted_chunks_of_requests; apply chunks_concat].
  unfold Console.main.
  change Console.opening with (@Returned unit tt).
  rewrite (console_get_metrics_pair rt cfg http_get custom_query Hbackend), Hitems.
  destruct items as [|item rest]; [congruence|].
  rewrite report_is_truthy.
  change (Console.print (nl ++ Console.msg_collected)) with (@Returned unit tt).
  cbv iota beta.
  destruct (Console.generate_report_with_gemini cfg generate_content _)
    as [r prompts].
  cbn [fst snd] in *. subst r.
  change (Console.print (nl ++ Console.msg_generated)) with (@Returned unit tt).
  cbv iota beta.
  unfold Console.send_to_discord. rewrite Hwebhook. cbn [negb].
  rewrite (console_send_chunks _ _ _ Hposts).
  reflexivity.
Qed.

(** X14. When the extraction yields queries, the texts of the failures of
    the backend and of the POSTs can be written to the console, the
    generator returns on the report of the collector and a webhook is
    configured, the script runs to its end: the queries sent to the backend
    are the extracted ones, the prompts are the generator's on that report,
    and the POSTs carry the chunks of the generator's narrative, which
    concatenate to it. *)
Theorem the_narrative_of_the_report_is_delivered
    (rt : PyRuntime) (cfg : Config) (http_get : http_request -> Console.http_reply)
    (custom_query : nat -> str -> Console.prom_reply)
    (generate_content : str -> genai_outcome)
    (http_post : nat -> http_request -> Console.post_reply)
    (items : list QueryItem) (narrative : str) :
  fst (Console.get_all_queries_from_grafana cfg http_get (DASHBOARD_UID cfg))
  = Returned items ->
  items <> [] ->
  (forall n q e message,
      custom_query n q = Console.QueryFailed e message ->
      Console.encodable message = true) ->
  fst (Console.generate_report_with_gemini cfg generate_content
         (Some (report_header cfg
                ++ concat (sections rt
                             (fun n q => Console.forget_prom (custom_query n q))
                             0 items))))
  = Returned narrative ->
  env_truthy (DISCORD_WEBHOOK_URL cfg) = true ->
  (forall n request message,
      http_post n request = Console.PostFailed message ->
      Console.encodable message = true) ->
  Console.main rt cfg http_get custom_query generate_content http_post
  = (Returned tt,
     {| Console.log_gets :=
          snd (Console.get_all_queries_from_grafana cfg http_get (DASHBOARD_UID cfg));
        Console.log_queries := map query items;
        Console.log_prompts :=
          snd (Console.generate_report_with_gemini cfg generate_content
                 (Some (report_header cfg
                        ++ concat (sections rt
                                     (fun n q => Console.forget_prom (custom_query n q))
                                     0 items))));
        Console.log_posts := map (discord_request cfg) (chunks narrative) |})
  /\ concat (posted_chunks (map (discord_request cfg) (chunks narrative))) = narrative.
Proof. apply console_main_with_queries. Qed.

Lemma the_narrative_of_the_report_is_delivered_witness :
  Console.log_queries
    (snd (Console.main Examples.runtime Examples.cfg
            (ConsoleExamples.serve Examples.mixed_dashboard)
            ConsoleExamples.failing_backend (fun _ => GenText (lit "ok"))
            (fun _ _ => Console.PostFailed (lit "500 Server Error"))))
  = map query ConsoleExamples.three_items
  /\ Console.log_posts
       (snd (Console.main Examples.runtime Examples.cfg
               (ConsoleExamples.serve Examples.mixed_dashboard)
               ConsoleExamples.failing_backend (fun _ => GenText (lit "ok"))
               (fun _ _ => Console.PostFailed (lit "500 Server Error"))))
     = [discord_request Examples.cfg (lit "ok")].
Proof.
  destruct (the_narrative_of_the_report_is_delivered Examples.runtime Examples.cfg
              (ConsoleExamples.serve Examples.mixed_dashboard)
              ConsoleExamples.failing_backend (fun _ => GenText (lit "ok"))
              (fun _ _ => Console.PostFailed (lit "500 Server Error"))
              ConsoleExamples.three_items (lit "ok"))
    as [Hrun _].
  - reflexivity.
  - discriminate.
  - intros [|[|n]] q e message; intros [= _ <-]; reflexivity.
  - reflexivity.
  - reflexivity.
  - intros n request message [= <-]. reflexivity.
  - rewrite Hrun. split; reflexivity.
Defined.

(* ================================================================== *)
(** ** Failures of the backend and of the webhook, with the console *)
(* ================================================================== *)







(* ================================================================== *)
(** ** The runs in which every print succeeds *)
(* ================================================================== *)

Lemma strings_have_no_title (l : list str) :
  titles_encodable (map JStr l) = true.
Proof. induction l as [|s rest IH]; [reflexivity|exact IH]. Qed.

(** The walk with its [print] is the walk without, on any body, when the
    titles of the panel list can be written. *)
Lemma console_queries_quiet_on_any_body (body : json) :
  titles_encodable (schema_panels body) = true ->
  Console.extract_queries body = extract_queries body.
Proof.
  rewrite <- body_panels_schema. unfold body_panels.
  destruct (dashboard_panels body) as [panels|] eqn:Hpanels.
  - now apply console_queries_quiet.
  - intros _. revert Hpanels.
    unfold dashboard_panels, Console.extract_queries, extract_queries.
    destruct body as [| | | | | |top]; try reflexivity.
    destruct (dict_get top k_dashboard (JObj [])) as [| | | | | |dash]; try reflexivity.
    destruct (dict_get dash k_panels (JArr [])) as [| | | |s|panels|d];
      try reflexivity; try discriminate; intros _; cbn [py_iter bind].
    + rewrite <- (map_map (fun c => [c]) JStr).
      apply console_panels_quiet, strings_have_no_title.
    + rewrite <- (map_map fst JStr).
      apply console_panels_quiet, strings_have_no_title.
Qed.

Lemma handlers_agree_on_the_walk (body : json) :
  Console.except_value_error (extract_queries body)
  = except_request_or_value (extract_queries body).
Proof.
  destruct (extract_queries body) as [items|e] eqn:Hwalk; [reflexivity|].
  now destruct (extract_queries_raises _ _ Hwalk) as [-> | ->].
Qed.

(** X16. When the texts that the extractor prints outside the protection
    of its handlers, and the titles of the panels of the dashboard, can be
    written to the console, the extractor with its console output returns
    the same result and issues the same request as the extractor read
    without its [print] calls. *)
Theorem extractor_is_the_quiet_one_on_writable_texts
    (cfg : Config) (http_get : http_request -> Console.http_reply)
    (dashboard_uid : option str) :
  (config_complete cfg dashboard_uid = true ->
   unprotected_texts_encodable cfg (http_get (grafana_request cfg dashboard_uid))
     dashboard_uid = true) ->
  (forall text body,
      http_get (grafana_request cfg dashboard_uid)
      = Console.Reply 200 text (Console.Parsed body) ->
      titles_encodable (schema_panels body) = true) ->
  Console.get_all_queries_from_grafana cfg http_get dashboard_uid
  = get_all_queries_from_grafana cfg
      (fun request => Console.forget_http (http_get request)) dashboard_uid.
Proof.
  unfold unprotected_texts_encodable, Console.get_all_queries_from_grafana,
    get_all_queries_from_grafana.
  change (forallb env_truthy
            [GRAFANA_URL cfg; GRAFANA_API_KEY cfg; GRAFANA_PUBLIC_DOMAIN cfg;
             dashboard_uid]) with (config_complete cfg dashboard_uid).
  destruct (config_complete cfg dashboard_uid); cbn [negb]; [|reflexivity].
  intros Htexts Htitles. specialize (Htexts eq_refl).
  apply andb_true_iff in Htexts as [Hline Hreply].
  rewrite print_unfold, Hline. cbv beta zeta.
  destruct (http_get (grafana_request cfg dashboard_uid))
    as [status_code text [body|message]|message]; cbn [Console.forget_http].
  - destruct (status_code =? 200)%Z eqn:Hstatus; cbn [negb].
    + apply Z.eqb_eq in Hstatus. subst status_code.
      rewrite (console_queries_quiet_on_any_body _ (Htitles _ _ eq_refl)).
      now rewrite handlers_agree_on_the_walk.
    + change (Console.print_value Console.msg_status (JInt status_code) [])
        with (@Returned unit tt).
      cbn [bind]. rewrite print_unfold.
      now destruct (Console.encodable (Console.msg_body_open ++ _)).
  - destruct (status_code =? 200)%Z eqn:Hstatus; cbn [negb orb] in *.
    + rewrite print_prefixed, Hreply by reflexivity. reflexivity.
    + change (Console.print_value Console.msg_status (JInt status_code) [])
        with (@Returned unit tt).
      cbn [bind]. rewrite print_unfold.
      now destruct (Console.encodable (Console.msg_body_open ++ _)).
  - rewrite print_prefixed, Hreply by reflexivity. reflexivity.
Qed.

Lemma extractor_is_the_quiet_one_on_writable_texts_witness :
  Console.get_all_queries_from_grafana Examples.cfg
    (ConsoleExamples.serve Examples.mixed_dashboard) (DASHBOARD_UID Examples.cfg)
  = get_all_queries_from_grafana Examples.cfg
      (Examples.serve Examples.mixed_dashboard) (DASHBOARD_UID Examples.cfg)
  /\ fst (Console.get_all_queries_from_grafana Examples.cfg
            (ConsoleExamples.serve
               (Examples.dashboard_of [ConsoleExamples.unprintable_panel]))
            (DASHBOARD_UID Examples.cfg))
     <> fst (get_all_queries_from_grafana Examples.cfg
               (Examples.serve
                  (Examples.dashboard_of [ConsoleExamples.unprintable_panel]))
               (DASHBOARD_UID Examples.cfg)).
Proof.
  split; [|discriminate].
  exact (extractor_is_the_quiet_one_on_writable_texts Examples.cfg
           (ConsoleExamples.serve Examples.mixed_dashboard)
           (DASHBOARD_UID Examples.cfg)
           (fun _ => eq_refl)
           (fun text body H =>
              match H in (_ = r)
                    return match r with
                           | Console.Reply _ _ (Console.Parsed b) =>
                               titles_encodable (schema_panels b) = true
                           | _ => True
                           end
              with eq_refl => eq_refl end)).
Defined.

(** X17. When the extraction yields no query (a listed failure, or a
    dashboard without a panel that is taken), the script stops after the
    collection and runs to its end: no query is sent to the backend, no
    prompt to the generative model and nothing is posted to the webhook. *)
Theorem no_query_ends_the_script
    (rt : PyRuntime) (cfg : Config) (http_get : http_request -> Console.http_reply)
    (custom_query : nat -> str -> Console.prom_reply)
    (generate_content : str -> genai_outcome)
    (http_post : nat -> http_request -> Console.post_reply) :
  fst (Console.get_all_queries_from_grafana cfg http_get (DASHBOARD_UID cfg))
  = Returned [] ->
  Console.main rt cfg http_get custom_query generate_content http_post
  = (Returned tt,
     {| Console.log_gets :=
          snd (Console.get_all_queries_from_grafana cfg http_get (DASHBOARD_UID cfg));
        Console.log_queries := [];
        Console.log_prompts := [];
        Console.log_posts := [] |}).
Proof.
  unfold Console.main, Console.get_metrics.
  change Console.opening with (@Returned unit tt).
  destruct (Console.get_all_queries_from_grafana cfg http_get (DASHBOARD_UID cfg))
    as [r gets].
  cbn [fst snd]. now intros ->.
Qed.

Lemma no_query_ends_the_script_witness :
  Console.main Examples.runtime Examples.cfg
    (fun _ => Console.Reply 502 [] (Console.NotJson []))
    ConsoleExamples.failing_backend (fun _ => GenText (lit "ok"))
    (fun _ _ => Console.Posted)
  = (Returned tt,
     {| Console.log_gets := [grafana_request Examples.cfg (DASHBOARD_UID Examples.cfg)];
        Console.log_queries := [];
        Console.log_prompts := [];
        Console.log_posts := [] |}).
Proof.
  exact (no_query_ends_the_script Examples.runtime Examples.cfg
           (fun _ => Console.Reply 502 [] (Console.NotJson []))
           ConsoleExamples.failing_backend (fun _ => GenText (lit "ok"))
           (fun _ _ => Console.Posted) eq_refl).
Defined.

(** X18. Without the generative-service credential the script still
    delivers: when the extraction yields queries, a webhook is configured
    and the texts of the failures of the backend and of the POSTs can be
    written to the console, the queries are sent to the backend, no prompt
    is sent, and exactly one message is posted, the fixed notice. *)
Theorem the_notice_is_posted_without_credential
    (rt : PyRuntime) (cfg : Config) (http_get : http_request -> Console.http_reply)
    (custom_query : nat -> str -> Console.prom_reply)
    (generate_content : str -> genai_outcome)
    (http_post : nat -> http_request -> Console.post_reply)
    (items : list QueryItem) :
  fst (Console.get_all_queries_from_grafana cfg http_get (DASHBOARD_UID cfg))
  = Returned items ->
  items <> [] ->
  (forall n q e message,
      custom_query n q = Console.QueryFailed e message ->
      Console.encodable message = true) ->
  GEMINI_API_KEY cfg = None \/ GEMINI_API_KEY cfg = Some [] ->
  env_truthy (DISCORD_WEBHOOK_URL cfg) = true ->
  (forall n request message,
      http_post n request = Console.PostFailed message ->
      Console.encodable message = true) ->
  Console.main rt cfg http_get custom_query generate_content http_post
  = (Returned tt,
     {| Console.log_gets :=
          snd (Console.get_all_queries_from_grafana cfg http_get (DASHBOARD_UID cfg));
        Console.log_queries := map query items;
        Console.log_prompts := [];
        Console.log_posts := [discord_request cfg notice_no_api_key] |}).
Proof.
  intros Hitems Hne Hbackend Hkey Hwebhook Hposts.
  assert (Hgen : forall metrics_text,
             Console.generate_report_with_gemini cfg generate_content metrics_text
             = (Returned notice_no_api_key, [])).
  { intros metrics_text. unfold Console.generate_report_with_gemini.
    now rewrite (env_truthy_false _ Hkey). }
  destruct (console_main_with_queries rt cfg http_get custom_query generate_content
              http_post items notice_no_api_key Hitems Hne Hbackend) as [Hmain _];
    [now rewrite Hgen|exact Hwebhook|exact Hposts|].
  rewrite Hmain, Hgen. cbn [snd].
  now rewrite chunks_of_short by (cbn; lia).
Qed.

Lemma the_notice_is_posted_without_credential_witness :
  posted_chunks
    (Console.log_posts
       (snd (Console.main Examples.runtime Examples.cfg_no_gemini_key
               (ConsoleExamples.serve Examples.mixed_dashboard)
               ConsoleExamples.failing_backend (fun _ => GenText (lit "ok"))
               (fun _ _ => Console.PostFailed (lit "500 Server Error")))))
  = [notice_no_api_key].
Proof.
  rewrite (the_notice_is_posted_without_credential Examples.runtime
             Examples.cfg_no_gemini_key (ConsoleExamples.serve Examples.mixed_dashboard)
             ConsoleExamples.failing_backend (fun _ => GenText (lit "ok"))
             (fun _ _ => Console.PostFailed (lit "500 Server Error"))
             ConsoleExamples.three_items).
  - reflexivity.
  - reflexivity.
  - discriminate.
  - intros [|[|n]] q e message; intros [= _ <-]; reflexivity.
  - left; reflexivity.
  - reflexivity.
  - intros n request message [= <-]. reflexivity.
Defined.
